(** * Booking admission and lifecycle of the car-rental API

    A shallow embedding of [backend/controllers/bookings.js], the Booking
    schema it writes through, the bookings router and the request the account
    page sends for a cancellation, followed by the properties of the booking
    rules.

    Conventions of the embedding.
    - A stored booking is a finite map from field names to values, as the
      document store holds it; the collection is the list of its documents in
      insertion order.
    - A query filter reaches the store as the handler wrote it, keys the
      schema does not declare included (Mongoose's [strictQuery: false], its
      default since version 7), and is evaluated as MongoDB does: an operator
      on a field the document lacks sees [null] there, and the range
      operators only relate values of one kind.
    - Writes go through the schema, which is strict: a key the schema does not
      declare is not saved, neither by [create] nor by [findByIdAndUpdate].
    - A date is its time value, milliseconds since the epoch, in [Z]; a
      request field is what the handler observes of it: whether it is truthy,
      and what [new Date] or [parseFloat] makes of it.
    - A number is [NaN] or an exact rational; rounding and the infinities of
      IEEE doubles are outside the model.  Durations of days are exact.
    - An ObjectId is a natural number. *)

From Stdlib Require Import ZArith QArith String List Bool Lia.
From stdpp Require Import base gmap strings list pretty.
Close Scope Q_scope.
Local Open Scope Z_scope.

(** ** Values and documents *)

Definition oid := N.

Inductive jsnum :=
  | NaN
  | Fin (q : Q).

Inductive value :=
  | VNull
  | VId (i : oid)
  | VStr (s : string)
  | VDate (ms : Z)
  | VNum (n : jsnum).

Abbreviation doc := (gmap string value).

Definition jsnum_eqb (a b : jsnum) : bool :=
  match a, b with
  | Fin p, Fin q => Qeq_bool p q
  | _, _ => false
  end.

(** Equality as the store decides it; [NaN] equals nothing. *)
Definition value_eqb (v w : value) : bool :=
  match v, w with
  | VNull, VNull => true
  | VId i, VId j => N.eqb i j
  | VStr s, VStr t => String.eqb s t
  | VDate a, VDate b => Z.eqb a b
  | VNum a, VNum b => jsnum_eqb a b
  | _, _ => false
  end.

(** Order between two values of the same kind; values of different kinds are
    not related by the range operators. *)
Definition value_cmp (v w : value) : option comparison :=
  match v, w with
  | VNull, VNull => Some Eq
  | VId i, VId j => Some (N.compare i j)
  | VStr s, VStr t => Some (String.compare s t)
  | VDate a, VDate b => Some (Z.compare a b)
  | VNum (Fin p), VNum (Fin q) => Some (Qcompare p q)
  | _, _ => None
  end.

(** The value a filter sees at a key: [null] where the document has none. *)
Definition field (d : doc) (k : string) : value := default VNull (d !! k).

(** ** Query filters *)

Inductive op :=
  | OEq (v : value)
  | ONe (v : value)
  | OIn (vs : list value)
  | OLt (v : value)
  | OLte (v : value)
  | OGt (v : value)
  | OGte (v : value).

Definition eval_op (o : op) (v : value) : bool :=
  match o with
  | OEq w => value_eqb v w
  | ONe w => negb (value_eqb v w)
  | OIn ws => existsb (value_eqb v) ws
  | OLt w => match value_cmp v w with Some Lt => true | _ => false end
  | OLte w => match value_cmp v w with Some Lt | Some Eq => true | _ => false end
  | OGt w => match value_cmp v w with Some Gt => true | _ => false end
  | OGte w => match value_cmp v w with Some Gt | Some Eq => true | _ => false end
  end.

(** [QField k ops] is [{ k: { op1, op2, ... } }], [QAnd] an object with
    several keys, [QOr] the [$or] of its clauses. *)
#[local] Set Warnings "-register-all".
Inductive query :=
  | QField (k : string) (ops : list op)
  | QAnd (fs : list query)
  | QOr (fs : list query).

Fixpoint matches (f : query) (d : doc) : bool :=
  match f with
  | QField k ops => forallb (fun o => eval_op o (field d k)) ops
  | QAnd fs => forallb (fun g => matches g d) fs
  | QOr fs => existsb (fun g => matches g d) fs
  end.

(** [Model.find(filter)] *)
Definition find (f : query) (coll : list doc) : list doc :=
  List.filter (matches f) coll.

Definition has_id (i : oid) (d : doc) : bool := value_eqb (field d "_id") (VId i).

(** [Model.findById(id)] *)
Definition findById (i : oid) (coll : list doc) : option doc :=
  List.find (has_id i) coll.

Fixpoint update_first (i : oid) (d' : doc) (coll : list doc) : list doc :=
  match coll with
  | [] => []
  | d :: rest => if has_id i d then d' :: rest else d :: update_first i d' rest
  end.

Fixpoint delete_first (i : oid) (coll : list doc) : list doc :=
  match coll with
  | [] => []
  | d :: rest => if has_id i d then rest else d :: delete_first i rest
  end.

(** ** The Booking schema *)

Inductive stype := TObjectId | TDate | TNumber | TString.

Inductive default_spec :=
  | DefaultValue (v : value)
  | DefaultNow.

Module Schema.
Record SchemaType := {
  type : stype;
  required : bool;
  enum : option (list string);
  default : option default_spec
}.
End Schema.
Abbreviation SchemaType := Schema.SchemaType.

Definition path (t : stype) (req : bool) (e : option (list string))
    (d : option default_spec) : SchemaType :=
  {| Schema.type := t; Schema.required := req; Schema.enum := e; Schema.default := d |}.

Definition BookingSchema : list (string * SchemaType) :=
  [ ("user", path TObjectId true None None);
    ("car", path TObjectId true None None);
    ("start_date", path TDate true None None);
    ("end_date", path TDate true None None);
    ("total_cost", path TNumber true None None);
    ("booking_status",
      path TString false
        (Some ["pending_payment"; "confirmed"; "active"; "completed"; "cancelled"])
        (Some (DefaultValue (VStr "pending_payment"))));
    ("pickup_location", path TObjectId true None None);
    ("dropoff_location", path TObjectId true None None);
    ("createdAt", path TDate false None (Some DefaultNow)) ].

(** A value of the path's type is kept as it is; [NaN] is no Number. *)
Definition cast (t : stype) (v : value) : option value :=
  match t, v with
  | _, VNull => Some VNull
  | TObjectId, VId _ => Some v
  | TDate, VDate _ => Some v
  | TNumber, VNum (Fin _) => Some v
  | TString, VStr _ => Some v
  | _, _ => None
  end.

Definition in_enum (e : option (list string)) (v : value) : bool :=
  match e, v with
  | Some allowed, VStr s => existsb (String.eqb s) allowed
  | _, _ => true
  end.

(** The validators of one path: [required], the cast, and [enum]. *)
Definition valid_at (st : SchemaType) (v : option value) : bool :=
  match v with
  | None | Some VNull => negb (Schema.required st)
  | Some w => match cast (Schema.type st) w with
              | Some w' => in_enum (Schema.enum st) w'
              | None => false
              end
  end.

Definition castable_at (st : SchemaType) (v : option value) : bool :=
  match v with
  | Some w => bool_decide (is_Some (cast (Schema.type st) w))
  | None => true
  end.

Definition with_default (st : SchemaType) (now : Z) (v : option value) : option value :=
  match v, Schema.default st with
  | Some _, _ => v
  | None, Some (DefaultValue w) => Some w
  | None, Some DefaultNow => Some (VDate now)
  | None, None => None
  end.

(** The document a strict schema builds from an object: declared paths only,
    defaults where the object is silent. *)
Definition construct (schema : list (string * SchemaType)) (now : Z) (obj : doc) : doc :=
  foldr (fun '(k, st) acc =>
           match with_default st now (obj !! k) with
           | Some v => <[k := v]> acc
           | None => acc
           end) ∅ schema.

(** [$set] of the declared paths an update object carries; the others are
    dropped. *)
Definition set_paths (schema : list (string * SchemaType)) (upd d : doc) : doc :=
  foldr (fun '(k, st) acc =>
           match upd !! k with
           | Some v => <[k := v]> acc
           | None => acc
           end) d schema.

Definition invalid_paths (schema : list (string * SchemaType)) (d : doc) : list string :=
  map fst (List.filter (fun '(k, st) => negb (valid_at st (d !! k))) schema).

Definition uncastable_paths (schema : list (string * SchemaType)) (upd : doc) : list string :=
  map fst (List.filter (fun '(k, st) => negb (castable_at st (upd !! k))) schema).

(** The validators [runValidators] runs: those of the paths being set. *)
Definition invalid_updates (schema : list (string * SchemaType)) (upd : doc) : list string :=
  map fst (List.filter (fun '(k, st) =>
                          match upd !! k with
                          | Some v => negb (valid_at st (Some v))
                          | None => false
                          end) schema).

(** The validators [save] runs: the required paths and the modified ones. *)
Definition invalid_on_save (schema : list (string * SchemaType)) (modified : list string)
    (d : doc) : list string :=
  map fst (List.filter (fun '(k, st) =>
                          (Schema.required st || existsb (String.eqb k) modified)
                          && negb (valid_at st (d !! k))) schema).

(** ** Errors and responses *)

(** What a handler hands to [next]: an [ErrorResponse] of its own, or an
    error a library call threw, with the paths it names. *)
Inductive error :=
  | ErrorResponse (message : string) (statusCode : Z)
  | Thrown (name : string) (paths : list string).

(** [res.status(c).json({ success: true, data })], [next(err)], a read-only
    handler's answer, whose content is not modelled, or no route at all. *)
Inductive outcome :=
  | Json (status : Z) (data : option doc)
  | Next (e : error)
  | Read (handler : string)
  | NoRoute.

Definition M (A : Type) : Type := error + A.

#[global] Instance M_ret : MRet M := fun A a => inr a.
#[global] Instance M_bind : MBind M := fun A B k m =>
  match m with
  | inl e => inl e
  | inr a => k a
  end.
Definition fail {A} (e : error) : M A := inl e.

(** [if (!c) return next(e)] *)
Definition require (c : bool) (e : error) : M unit :=
  if c then mret tt else fail e.

(** [const x = ...; if (!x) return next(e)] *)
Definition found {A} (o : option A) (e : error) : M A :=
  match o with
  | Some a => mret a
  | None => fail e
  end.

(** ** The database *)

Module Car.
Record t := { make : string; model : string; daily_rate : Q }.
End Car.

Record db := {
  users : gset oid;
  cars : gmap oid Car.t;
  locations : gset oid;
  bookings : list doc;
  next_oid : oid
}.

Definition with_bookings (s : db) (coll : list doc) (next : oid) : db :=
  {| users := users s; cars := cars s; locations := locations s;
     bookings := coll; next_oid := next |}.

(** [Booking.create(obj)] at time [now] *)
Definition Booking_create (s : db) (now : Z) (obj : doc) : M (db * doc) :=
  let d := <["_id" := VId (next_oid s)]> (construct BookingSchema now obj) in
  match invalid_paths BookingSchema d with
  | [] => mret (with_bookings s (bookings s ++ [d]) (N.succ (next_oid s)), d)
  | ps => fail (Thrown "ValidationError" ps)
  end.

(** [Booking.findByIdAndUpdate(id, upd, { new: true, runValidators: true })];
    the answer is the updated document, or [null]. *)
Definition Booking_findByIdAndUpdate (s : db) (i : oid) (upd : doc) : M (db * option doc) :=
  match uncastable_paths BookingSchema upd with
  | [] =>
      match invalid_updates BookingSchema upd with
      | [] =>
          match findById i (bookings s) with
          | Some d =>
              let d' := set_paths BookingSchema upd d in
              mret (with_bookings s (update_first i d' (bookings s)) (next_oid s), Some d')
          | None => mret (s, None)
          end
      | ps => fail (Thrown "ValidationError" ps)
      end
  | ps => fail (Thrown "CastError" ps)
  end.

(** [booking.save()] of a loaded document [d] with the paths [modified] *)
Definition Booking_save (s : db) (i : oid) (modified : list string) (d : doc) : M db :=
  match invalid_on_save BookingSchema modified d with
  | [] => mret (with_bookings s (update_first i d (bookings s)) (next_oid s))
  | ps => fail (Thrown "ValidationError" ps)
  end.

(** [booking.deleteOne()] *)
Definition Booking_deleteOne (s : db) (i : oid) : db :=
  with_bookings s (delete_first i (bookings s)) (next_oid s).

(** ** Requests *)

(** [new Date(x)] for a truthy [x] *)
Inductive jsdate :=
  | InvalidDate
  | Date (ms : Z).

(** [req.body.total_cost]: [undefined], [null], the empty string, or any other
    value, given by what [parseFloat] returns for it. *)
Inductive cost_field :=
  | CostUndefined
  | CostNull
  | CostEmpty
  | CostValue (parsed : jsnum).

Definition parseFloat (c : cost_field) : jsnum :=
  match c with
  | CostValue n => n
  | _ => NaN
  end.

(** A field of the body is [None] when it is missing or falsy. *)
Module Body.
Record t := {
  user : option oid;
  car : option oid;
  startDate : option jsdate;
  endDate : option jsdate;
  pickupLocation : option oid;
  dropoffLocation : option oid;
  total_cost : cost_field;
  booking_status : option string
}.
End Body.

Module User.
Record t := { id : oid; role : string }.
End User.

(** [now] is the clock at the call, [midnight] what
    [new Date().setHours(0,0,0,0)] returns then. *)
Record request := {
  user : User.t;
  params_id : oid;
  body : Body.t;
  now : Z;
  midnight : Z
}.

Definition oid_str (i : oid) : string := pretty i.

Definition isAdmin (r : request) : bool := String.eqb (User.role (user r)) "admin".

Definition truthy (o : option string) : option string :=
  match o with
  | Some s => if String.eqb s "" then None else Some s
  | None => None
  end.

Definition day_ms : Z := 1000 * 60 * 60 * 24.

(** [Math.ceil(a / b)] for [b > 0] *)
Definition ceil_div (a b : Z) : Z := - ((- a) / b).

Definition durationDays (start end' : Z) : Z := Z.max 1 (ceil_div (end' - start) day_ms).

(** The availability query of both handlers; [exclude] is [null] in
    [createBooking] and the booking's id in [updateBooking]. *)
Definition or_of_ranges (start end' : Z) : query :=
  QOr [ QField "startDate" [OLt (VDate end'); OGte (VDate start)];
        QField "endDate" [OGt (VDate start); OLte (VDate end')];
        QAnd [ QField "startDate" [OLte (VDate start)];
               QField "endDate" [OGte (VDate end')] ] ].

Definition overlapQuery (exclude : value) (carId : oid) (start end' : Z) : query :=
  QAnd [ QField "_id" [ONe exclude];
         QField "car" [OEq (VId carId)];
         QField "booking_status" [OIn [VStr "confirmed"; VStr "active"]];
         or_of_ranges start end' ].

Definition not_available (c : Car.t) : error :=
  ErrorResponse ("Car " +:+ Car.make c +:+ " " +:+ Car.model c
                 +:+ " is not available for the selected dates") 400.

(** ** The handlers of [controllers/bookings.js] *)

(** [totalCost] of [createBooking] *)
Definition create_totalCost (r : request) (car : Car.t) (start end' : Z) : jsnum :=
  if isAdmin r && negb (match Body.total_cost (body r) with CostUndefined => true | _ => false end)
  then parseFloat (Body.total_cost (body r))
  else Fin (inject_Z (durationDays start end') * Car.daily_rate car)%Q.

(** The status [createBooking] asks for: the administrator's, if truthy. *)
Definition create_status (r : request) : string :=
  match (if isAdmin r then truthy (Body.booking_status (body r)) else None) with
  | Some st => st
  | None => "pending_payment"
  end.

(** The object [createBooking] passes to [Booking.create]. *)
Definition new_booking (userId carId : oid) (start end' : Z) (totalCost : jsnum)
    (pickupLocationId dropoffLocationId : oid) (booking_status : string) : doc :=
  list_to_map
    [ ("user", VId userId);
      ("car", VId carId);
      ("start_date", VDate start);
      ("end_date", VDate end');
      ("total_cost", VNum totalCost);
      ("pickup_location", VId pickupLocationId);
      ("dropoff_location", VId dropoffLocationId);
      ("booking_status", VStr booking_status) ].

Definition createBooking_run (s : db) (r : request) : M (db * doc) :=
  let b := body r in
  let userId := if isAdmin r then Body.user b else Some (User.id (user r)) in
  match userId, Body.car b, Body.startDate b, Body.endDate b,
        Body.pickupLocation b, Body.dropoffLocation b with
  | Some userId, Some carId, Some startDate, Some endDate,
    Some pickupLocationId, Some dropoffLocationId =>
      _ ← require (bool_decide (userId ∈ users s))
            (ErrorResponse ("User not found with id " +:+ oid_str userId) 404);
      car ← found (cars s !! carId)
              (ErrorResponse ("Car not found with id " +:+ oid_str carId) 404);
      _ ← require (bool_decide (pickupLocationId ∈ locations s))
            (ErrorResponse ("Pickup location not found with id "
                            +:+ oid_str pickupLocationId) 404);
      _ ← require (bool_decide (dropoffLocationId ∈ locations s))
            (ErrorResponse ("Dropoff location not found with id "
                            +:+ oid_str dropoffLocationId) 404);
      match startDate, endDate with
      | Date start, Date end' =>
          _ ← require (negb (end' <=? start))
                (ErrorResponse "Start date must be before end date" 400);
          _ ← require (negb ((start <? midnight r) && negb (isAdmin r)))
                (ErrorResponse "Start date cannot be in the past for customer bookings" 400);
          let overlappingBookings := find (overlapQuery VNull carId start end') (bookings s) in
          _ ← require (length overlappingBookings =? 0)%nat (not_available car);
          Booking_create s (now r)
            (new_booking userId carId start end' (create_totalCost r car start end')
               pickupLocationId dropoffLocationId (create_status r))
      | _, _ => fail (ErrorResponse "Invalid date format provided" 400)
      end
  | _, _, _, _, _, _ =>
      fail (ErrorResponse "Missing required booking information (User, Car, Dates, Locations)" 400)
  end.

Definition createBooking (s : db) (r : request) : db * outcome :=
  match createBooking_run s r with
  | inr (s', booking) => (s', Json 201 (Some booking))
  | inl e => (s, Next e)
  end.

(** [finalCost] of [updateBooking] *)
Definition update_finalCost (r : request) (car : Car.t) (start end' : Z) : jsnum :=
  let calculatedCost := Fin (inject_Z (durationDays start end') * Car.daily_rate car)%Q in
  match Body.total_cost (body r) with
  | CostValue _ => parseFloat (Body.total_cost (body r))
  | CostUndefined | CostNull | CostEmpty => calculatedCost
  end.

(** [updateData] of [updateBooking] *)
Definition updateData (userId carId : oid) (start end' : Z)
    (pickupLocationId dropoffLocationId : oid) (booking_status : string)
    (finalCost : jsnum) : doc :=
  list_to_map
    [ ("user", VId userId);
      ("car", VId carId);
      ("startDate", VDate start);
      ("endDate", VDate end');
      ("pickup_location", VId pickupLocationId);
      ("dropoff_location", VId dropoffLocationId);
      ("booking_status", VStr booking_status);
      ("total_cost", VNum finalCost) ].

Definition updateBooking_run (s : db) (r : request) : M (db * option doc) :=
  let bookingId := params_id r in
  let b := body r in
  _ ← found (findById bookingId (bookings s))
        (ErrorResponse ("Booking not found with id of " +:+ oid_str bookingId) 404);
  match Body.user b, Body.car b, Body.startDate b, Body.endDate b,
        Body.pickupLocation b, Body.dropoffLocation b, truthy (Body.booking_status b) with
  | Some userId, Some carId, Some startDate, Some endDate,
    Some pickupLocationId, Some dropoffLocationId, Some booking_status =>
      _ ← require (bool_decide (userId ∈ users s))
            (ErrorResponse ("User not found with id " +:+ oid_str userId) 404);
      car ← found (cars s !! carId)
              (ErrorResponse ("Car not found with id " +:+ oid_str carId) 404);
      _ ← require (bool_decide (pickupLocationId ∈ locations s))
            (ErrorResponse ("Pickup location not found with id "
                            +:+ oid_str pickupLocationId) 404);
      _ ← require (bool_decide (dropoffLocationId ∈ locations s))
            (ErrorResponse ("Dropoff location not found with id "
                            +:+ oid_str dropoffLocationId) 404);
      match startDate, endDate with
      | Date start, Date end' =>
          _ ← require (negb (end' <=? start))
                (ErrorResponse "Start date must be before end date" 400);
          let overlappingBookings :=
            find (overlapQuery (VId bookingId) carId start end') (bookings s) in
          _ ← require (length overlappingBookings =? 0)%nat (not_available car);
          Booking_findByIdAndUpdate s bookingId
            (updateData userId carId start end' pickupLocationId dropoffLocationId
               booking_status (update_finalCost r car start end'))
      | _, _ => fail (ErrorResponse "Invalid date format provided" 400)
      end
  | _, _, _, _, _, _, _ =>
      fail (ErrorResponse
              "Missing required booking information (User, Car, Dates, Locations, Status)" 400)
  end.

Definition updateBooking (s : db) (r : request) : db * outcome :=
  match updateBooking_run s r with
  | inr (s', booking) => (s', Json 200 booking)
  | inl e => (s, Next e)
  end.

Definition deleteBooking (s : db) (r : request) : db * outcome :=
  match findById (params_id r) (bookings s) with
  | None =>
      (s, Next (ErrorResponse ("Booking not found with id of " +:+ oid_str (params_id r)) 404))
  | Some _ => (Booking_deleteOne s (params_id r), Json 200 None)
  end.

(** [`${booking.booking_status}`]; a String path loads as a string, [null]
    or [undefined]. *)
Definition status_text (d : doc) : string :=
  match d !! "booking_status" with
  | Some (VStr st) => st
  | Some VNull => "null"
  | _ => "undefined"
  end.

Definition invalid_state (d : doc) : error :=
  ErrorResponse ("Booking status is already '" +:+ status_text d
                 +:+ "', cannot confirm payment.") 400.

Definition confirmBookingPayment_run (s : db) (r : request) : M (db * doc) :=
  let bookingId := params_id r in
  booking ← found (findById bookingId (bookings s))
                  (ErrorResponse ("Booking not found with id of " +:+ oid_str bookingId) 404);
  match booking !! "user" with
  | Some (VId owner) =>
      _ ← require (negb (negb (N.eqb owner (User.id (user r))) && negb (isAdmin r)))
                (ErrorResponse "Not authorized to update this booking" 401);
      _ ← require (value_eqb (field booking "booking_status") (VStr "pending_payment"))
                (invalid_state booking);
      let booking' := <["booking_status" := VStr "confirmed"]> booking in
      s' ← Booking_save s bookingId ["booking_status"] booking';
      mret (s', booking')
  | _ => fail (Thrown "TypeError" ["user"])
  end.

Definition confirmBookingPayment (s : db) (r : request) : db * outcome :=
  match confirmBookingPayment_run s r with
  | inr (s', booking) => (s', Json 200 (Some booking))
  | inl e => (s, Next e)
  end.

(** ** The router of [routes/bookings.js] *)

Inductive method := GET | POST | PUT | DELETE.

Inductive handler :=
  | H_createBooking
  | H_getBookings
  | H_getBooking
  | H_updateBooking
  | H_deleteBooking
  | H_confirmBookingPayment.

(** The route table, on the path below the mount point [/api/v1/bookings],
    split at the slashes: for each route the roles [authorize] admits, if the
    route has that middleware, and the handler. *)
Definition routes (m : method) (path : list string) : option (option (list string) * handler) :=
  match path, m with
  | [], POST => Some (None, H_createBooking)
  | [], GET => Some (None, H_getBookings)
  | [_; "confirm-payment"], POST => Some (None, H_confirmBookingPayment)
  | [_], GET => Some (None, H_getBooking)
  | [_], PUT => Some (Some ["admin"], H_updateBooking)
  | [_], DELETE => Some (Some ["admin"], H_deleteBooking)
  | _, _ => None
  end.

(** [authorize(...roles)] *)
Definition authorize (roles : list string) (r : request) : M unit :=
  require (existsb (String.eqb (User.role (user r))) roles)
    (ErrorResponse ("User role '" +:+ User.role (user r)
                    +:+ "' is not authorized to access this route") 403).

Definition run_handler (h : handler) (s : db) (r : request) : db * outcome :=
  match h with
  | H_createBooking => createBooking s r
  | H_getBookings => (s, Read "getBookings")
  | H_getBooking => (s, Read "getBooking")
  | H_updateBooking => updateBooking s r
  | H_deleteBooking => deleteBooking s r
  | H_confirmBookingPayment => confirmBookingPayment s r
  end.

(** A request that passed [protect], so that [req.user] is set. *)
Definition router (s : db) (m : method) (path : list string) (r : request) : db * outcome :=
  match routes m path with
  | None => (s, NoRoute)
  | Some (None, h) => run_handler h s r
  | Some (Some roles, h) =>
      match authorize roles r with
      | inr _ => run_handler h s r
      | inl e => (s, Next e)
      end
  end.

(** [handleUserCancelBooking] of [frontend/js/account.js]: the method and the
    path, below [/bookings], of the request it sends. *)
Definition handleUserCancelBooking (bookingId : oid) : method * list string :=
  (PUT, [oid_str bookingId; "cancel"]).

(** ** Calendar dates *)

(** Days from 1970-01-01 to the given day of the proleptic Gregorian
    calendar. *)
Definition days_from_civil (y m d : Z) : Z :=
  let y' := if m <=? 2 then y - 1 else y in
  let era := y' / 400 in
  let yoe := y' - era * 400 in
  let doy := (153 * (if 2 <? m then m - 3 else m + 9) + 2) / 5 + d - 1 in
  let doe := yoe * 365 + yoe / 4 - yoe / 100 + doy in
  era * 146097 + doe - 719468.

(** The time value of [new Date("yyyy-mm-dd")], midnight UTC. *)
Definition utc (y m d : Z) : Z := days_from_civil y m d * day_ms.

(** ** Sequences of calls *)

Inductive call :=
  | Create (r : request)
  | Update (r : request)
  | Confirm (r : request)
  | Delete (r : request).

Definition step (s : db) (c : call) : db :=
  match c with
  | Create r => (createBooking s r).1
  | Update r => (updateBooking s r).1
  | Confirm r => (confirmBookingPayment s r).1
  | Delete r => (deleteBooking s r).1
  end.

Definition run (s : db) (cs : list call) : db := fold_left step cs s.

(** ** The properties of a collection *)

(** A booking that holds its car: confirmed or active. *)
Definition holds_car (d : doc) : bool :=
  existsb (value_eqb (field d "booking_status")) [VStr "confirmed"; VStr "active"].

Definition date_at (d : doc) (k : string) : option Z :=
  match d !! k with
  | Some (VDate ms) => Some ms
  | _ => None
  end.

(** The car of a booking, whether the booking holds it, and its range. *)
Definition range_held (d : doc) : value * bool * option Z * option Z :=
  (field d "car", holds_car d, date_at d "start_date", date_at d "end_date").

(** No two distinct bookings that hold the same car have overlapping
    ranges: of two such bookings, one starts when the other has ended. *)
Definition no_double_booking (coll : list doc) : Prop :=
  forall (i j : nat) (carA carB : value) (sa ea sb eb : Z),
    i ≠ j ->
    map range_held coll !! i = Some (carA, true, Some sa, Some ea) ->
    map range_held coll !! j = Some (carB, true, Some sb, Some eb) ->
    value_eqb carA carB = true ->
    sa >= eb \/ sb >= ea.

(** The overlap test in the words of the specification: two half-open
    ranges [s1,e1) and [s2,e2) overlap iff [s1 < e2] and [s2 < e1]. *)
Definition half_open_overlap (s1 e1 s2 e2 : Z) : bool := (s1 <? e2) && (s2 <? e1).

(** A document without the keys the availability query reads. *)
Definition no_camel (d : doc) : Prop :=
  d !! "startDate" = None /\ d !! "endDate" = None.

Definition camel_free (coll : list doc) : Prop := Forall no_camel coll.

(** A document the schema's validators accept. *)
Definition schema_valid (d : doc) : Prop := invalid_paths BookingSchema d = [].





(** What the examples read off a document and off an answer. *)
Definition summary (d : doc) :
    option value * option value * option value * option value * option value * option value :=
  (d !! "_id", d !! "car", d !! "booking_status",
   d !! "start_date", d !! "end_date", d !! "total_cost").

Definition data (o : outcome) : doc :=
  match o with
  | Json _ (Some d) => d
  | _ => ∅
  end.

(** Whether a handler answered with the given status and a document. *)
Definition answered (code : Z) (res : db * outcome) : bool :=
  match res.2 with
  | Json c (Some _) => Z.eqb c code
  | _ => false
  end.

(** ** A small instance *)

Definition camry : Car.t := {| Car.make := "Toyota"; Car.model := "Camry"; Car.daily_rate := 50%Q |}.

(** Users 1 (the administrator), 2 and 3, one car, one location, no
    booking. *)
Definition db0 : db :=
  {| users := {[ 1%N; 2%N; 3%N ]};
     cars := {[ 10%N := camry ]};
     locations := {[ 20%N ]};
     bookings := [];
     next_oid := 100%N |}.

Definition admin : User.t := {| User.id := 1%N; User.role := "admin" |}.
Definition customer (i : oid) : User.t := {| User.id := i; User.role := "customer" |}.

(** A request on New Year's Day 2024 for the car of [db0]. *)
Definition booking_request (u : User.t) (target : oid) (for_user : option oid) (carId : oid)
    (start end' : Z) (cost : cost_field) (status : option string) : request :=
  {| user := u;
     params_id := target;
     body := {| Body.user := for_user;
                Body.car := Some carId;
                Body.startDate := Some (Date start);
                Body.endDate := Some (Date end');
                Body.pickupLocation := Some 20%N;
                Body.dropoffLocation := Some 20%N;
                Body.total_cost := cost;
                Body.booking_status := status |};
     now := utc 2024 1 1 + 36000000;
     midnight := utc 2024 1 1 |}.

(** A booking as a writer that does not go through the schema could have
    left it, with the keys the availability query reads. *)
Definition foreign_booking (i userId carId : oid) (start end' : Z) (status : string) : doc :=
  list_to_map
    [ ("_id", VId i);
      ("user", VId userId);
      ("car", VId carId);
      ("startDate", VDate start);
      ("endDate", VDate end');
      ("start_date", VDate start);
      ("end_date", VDate end');
      ("total_cost", VNum (Fin 250%Q));
      ("pickup_location", VId 20%N);
      ("dropoff_location", VId 20%N);
      ("booking_status", VStr status) ].

Definition db_foreign : db :=
  {| users := users db0;
     cars := cars db0;
     locations := locations db0;
     bookings := [ foreign_booking 100%N 2%N 10%N (utc 2024 3 10) (utc 2024 3 15) "confirmed";
                   foreign_booking 101%N 3%N 10%N (utc 2024 3 20) (utc 2024 3 25) "confirmed" ];
     next_oid := 102%N |}.

(** ** The read handlers of [controllers/bookings.js] *)

(** [getBooking]: the lookup, the owner that [populate] loads, and the access
    check.  The content of the answer, the booking with its references
    populated, is not modelled. *)
Definition getBooking (s : db) (r : request) : db * outcome :=
  match findById (params_id r) (bookings s) with
  | None =>
      (s, Next (ErrorResponse ("Booking not found with id of " +:+ oid_str (params_id r)) 404))
  | Some booking =>
      match booking !! "user" with
      | Some (VId owner) =>
          if bool_decide (owner ∈ users s) then
            if negb (N.eqb owner (User.id (user r))) && negb (isAdmin r)
            then (s, Next (ErrorResponse "Not authorized to view this booking" 401))
            else (s, Read "getBooking")
          else (s, Next (Thrown "TypeError" ["user"]))
      | _ => (s, Next (Thrown "TypeError" ["user"]))
      end
  end.

(** [req.query] of [getBookings]; [page] and [limit] are what [parseInt]
    returns, [None] for [NaN]. *)
Module Query.
Record t := {
  booking_status : option string;
  page : option Z;
  limit : option Z
}.
End Query.

(** [parseInt(x, 10) || d] *)
Definition or_default (n : option Z) (d : Z) : Z :=
  match n with
  | Some 0 | None => d
  | Some n => n
  end.

(** The conditions of [query] and of [countQuery] in [getBookings]: the
    caller's own bookings unless the caller is an administrator, and the
    status the request asks for. *)
Definition getBookings_conditions (u : User.t) (q : Query.t) : query :=
  QAnd ((if String.eqb (User.role u) "admin" then [] else [QField "user" [OEq (VId (User.id u))]])
        ++ match truthy (Query.booking_status q) with
           | Some st => [QField "booking_status" [OEq (VStr st)]]
           | None => []
           end).

(** [total] of [getBookings] *)
Definition getBookings_total (s : db) (u : User.t) (q : Query.t) : Z :=
  Z.of_nat (length (find (getBookings_conditions u q) (bookings s))).

Module Pagination.
Record t := {
  next : option (Z * Z);
  prev : option (Z * Z)
}.
End Pagination.

(** [pagination] of [getBookings], each link with its [page] and [limit] *)
Definition getBookings_pagination (q : Query.t) (total : Z) : Pagination.t :=
  let page := or_default (Query.page q) 1 in
  let limit := or_default (Query.limit q) 100 in
  let startIndex := (page - 1) * limit in
  let endIndex := page * limit in
  {| Pagination.next := if endIndex <? total then Some (page + 1, limit) else None;
     Pagination.prev := if 0 <? startIndex then Some (page - 1, limit) else None |}.

(** ** The metrics of [controllers/admin.js] *)

(** What [$sum] adds for a document: its [total_cost] when that is a
    number, and nothing otherwise. *)
Definition cost_of (d : doc) : jsnum :=
  match d !! "total_cost" with
  | Some (VNum n) => n
  | _ => Fin 0
  end.

Definition jsnum_add (a b : jsnum) : jsnum :=
  match a, b with
  | Fin x, Fin y => Fin (x + y)%Q
  | _, _ => NaN
  end.

(** [totalRevenue] of [getAdminOverview]: the sum over the completed
    bookings, 0 when there is none. *)
Definition totalRevenue (s : db) : jsnum :=
  foldr (fun d acc => jsnum_add (cost_of d) acc) (Fin 0)
    (find (QField "booking_status" [OEq (VStr "completed")]) (bookings s)).

(** [activeBookingsCount] of [getAdminOverview] *)
Definition activeBookingsCount (s : db) : nat :=
  length (find (QField "booking_status" [OEq (VStr "active")]) (bookings s)).

(** [futureBookingsCount] of [getAdminOverview], at a call whose
    [new Date().setHours(0, 0, 0, 0)] is [midnight] *)
Definition futureBookingsCount (s : db) (midnight : Z) : nat :=
  length (find (QAnd [ QField "booking_status" [OIn [VStr "confirmed"; VStr "active"]];
                       QField "start_date" [OGte (VDate midnight)] ])
            (bookings s)).

(** ** The router of [routes/admin.js] *)

(** A request that passed [protect]: [authorize('admin')] runs before any
    route is tried, and the only route is [GET /overview]. *)
Definition adminRouter (m : method) (path : list string) (r : request) : outcome :=
  match authorize ["admin"] r with
  | inl e => Next e
  | inr _ =>
      match path, m with
      | ["overview"], GET => Read "getAdminOverview"
      | _, _ => NoRoute
      end
  end.

(** The requests of [frontend/js/admin.js] about bookings, as method and path
    below [/admin]: the listing, one booking, the form's create and edit, and
    the delete. *)
Definition admin_console_requests (bookingId : string) : list (method * list string) :=
  [ (GET, ["bookings"]);
    (GET, ["bookings"; bookingId]);
    (POST, ["bookings"]);
    (PUT, ["bookings"; bookingId]);
    (DELETE, ["bookings"; bookingId]) ].

(** ** Request bodies as the frontend sends them *)





(** ** The bookings tab of [frontend/js/account.js] *)

(** [new Date(b.end_date)] for a booking as the API serialises it: a Date
    path is a date, [null] or absent. *)
Definition js_Date (v : option value) : jsdate :=
  match v with
  | Some (VDate ms) => Date ms
  | Some VNull => Date 0
  | _ => InvalidDate
  end.

(** [b.status === s] *)
Definition status_equals (b : doc) (s : string) : bool :=
  match b !! "status" with
  | Some (VStr st) => String.eqb st s
  | _ => false
  end.

(** The two filters of [fetchAndDisplayUserBookings]; a comparison with an
    invalid date is false. *)
Definition upcoming (now : Z) (b : doc) : bool :=
  match js_Date (b !! "end_date") with
  | Date e => now <=? e
  | InvalidDate => false
  end
  && negb (status_equals b "completed") && negb (status_equals b "cancelled").

Definition past (now : Z) (b : doc) : bool :=
  match js_Date (b !! "end_date") with
  | Date e => e <? now
  | InvalidDate => false
  end
  || status_equals b "completed" || status_equals b "cancelled".

(** The two buttons of a card in [renderBookingList] *)
Definition pay_now_button (b : doc) : bool := status_equals b "pending_payment".
Definition cancel_button (b : doc) : bool := status_equals b "confirmed".

(** The error of [createBooking] for a customer's start date before today. *)
Definition past_start : error :=
  ErrorResponse "Start date cannot be in the past for customer bookings" 400.

(** ** Further properties of a collection *)

(** A booking that ends after it starts. *)
Definition dates_ordered (d : doc) : Prop :=
  forall s e : Z,
    d !! "start_date" = Some (VDate s) -> d !! "end_date" = Some (VDate e) -> s < e.

(** No two documents with the same [_id]. *)
Definition unique_ids (coll : list doc) : Prop :=
  NoDup (map (fun d : doc => field d "_id") coll).

(** The booking a call is about: the one it creates, or the one it names. *)
Definition target (s : db) (c : call) : oid :=
  match c with
  | Create _ => next_oid s
  | Update r | Confirm r | Delete r => params_id r
  end.

(** The bookings of the users other than [u]. *)
Definition others (u : oid) (coll : list doc) : list doc :=
  List.filter (fun d => negb (value_eqb (field d "user") (VId u))) coll.

(** ** Proof steps *)

(** Runs the binds of a handler once a guard has been decided. *)
Ltac run_guards :=
  cbn [mbind M_bind require found mret M_ret fail fst snd].

(** Closes a case in which an error other than the conflict error is
    supposed to be the conflict error. *)
Ltac other_error H :=
  unfold not_available in H; try discriminate H;
  injection H as H; cbn [String.append] in H; discriminate H.

(** ** Lemmas on the error monad *)

Lemma bind_inr {A B} (m : M A) (k : A -> M B) (b : B) :
  (m ≫= k) = inr b -> exists a, m = inr a /\ k a = inr b.
Proof.
  destruct m as [e | a]; cbn; [discriminate | eauto].
Qed.

Lemma bind_inl {A B} (m : M A) (k : A -> M B) (e : error) :
  (m ≫= k) = inl e -> m = inl e \/ exists a, m = inr a /\ k a = inl e.
Proof.
  destruct m as [e' | a]; cbn; [left; congruence | right; eauto].
Qed.

Lemma require_inr (c : bool) (e : error) (u : unit) : require c e = inr u -> c = true.
Proof. destruct c; [reflexivity | discriminate]. Qed.

Lemma require_inl (c : bool) (e e' : error) : require c e = inl e' -> c = false /\ e' = e.
Proof. destruct c; cbn; [discriminate | intros [= <-]; auto]. Qed.

Lemma found_inr {A} (o : option A) (e : error) (a : A) : found o e = inr a -> o = Some a.
Proof. destruct o; cbn; [intros [= <-]; reflexivity | discriminate]. Qed.

Lemma found_inl {A} (o : option A) (e e' : error) : found o e = inl e' -> o = None /\ e' = e.
Proof. destruct o; cbn; [discriminate | intros [= <-]; auto]. Qed.

Lemma answered_eq (code : Z) (res : db * outcome) :
  answered code res = true -> res = (res.1, Json code (Some (data res.2))).
Proof.
  destruct res as [s o]. unfold answered. cbn [fst snd].
  destruct o as [c [d |] | | |]; try discriminate.
  intros ->%Z.eqb_eq. reflexivity.
Qed.

Lemma found_eq {A} (o : option A) (x : A) :
  bool_decide (is_Some o) = true -> o = Some (default x o).
Proof.
  intros [a ->]%bool_decide_eq_true. reflexivity.
Qed.

(** ** Lemmas on the schema *)

Lemma construct_undeclared (schema : list (string * SchemaType)) (now : Z) (obj : doc) (k : string) :
  k ∉ map fst schema -> construct schema now obj !! k = None.
Proof.
  induction schema as [| [k' st] schema IH]; cbn; intros Hk.
  - apply lookup_empty.
  - apply not_elem_of_cons in Hk as [Hne Hk].
    destruct (with_default st now (obj !! k')); [rewrite lookup_insert_ne by congruence |]; auto.
Qed.

Lemma set_paths_undeclared (schema : list (string * SchemaType)) (upd d : doc) (k : string) :
  k ∉ map fst schema -> set_paths schema upd d !! k = d !! k.
Proof.
  induction schema as [| [k' st] schema IH]; cbn; intros Hk; [reflexivity |].
  apply not_elem_of_cons in Hk as [Hne Hk].
  destruct (upd !! k'); [rewrite lookup_insert_ne by congruence |]; auto.
Qed.

Lemma BookingSchema_no_startDate : "startDate" ∉ map fst BookingSchema.
Proof. cbn. rewrite !not_elem_of_cons. repeat split; try discriminate. apply not_elem_of_nil. Qed.

Lemma BookingSchema_no_endDate : "endDate" ∉ map fst BookingSchema.
Proof. cbn. rewrite !not_elem_of_cons. repeat split; try discriminate. apply not_elem_of_nil. Qed.


(** ** The availability query and the stored keys *)

Lemma or_of_ranges_no_camel (d : doc) (start end' : Z) :
  no_camel d -> matches (or_of_ranges start end') d = false.
Proof.
  intros [Hs He]. unfold or_of_ranges. cbn. unfold field. rewrite Hs, He. reflexivity.
Qed.

Lemma overlapQuery_no_camel (d : doc) (exclude : value) (carId : oid) (start end' : Z) :
  no_camel d -> matches (overlapQuery exclude carId start end') d = false.
Proof.
  intros Hd. unfold overlapQuery. cbn [matches forallb].
  rewrite (or_of_ranges_no_camel d start end' Hd).
  rewrite !andb_false_r. reflexivity.
Qed.

(** Only a booking of the requested car that is confirmed or active can
    match, whatever keys it has. *)
Lemma overlapQuery_holds_car (d : doc) (exclude : value) (carId : oid) (start end' : Z) :
  matches (overlapQuery exclude carId start end') d = true ->
  value_eqb (field d "car") (VId carId) = true /\ holds_car d = true.
Proof.
  unfold overlapQuery, holds_car. cbn [matches forallb eval_op]. intros H.
  apply andb_true_iff in H as [_ H].
  apply andb_true_iff in H as [Hcar H].
  apply andb_true_iff in H as [Hst _].
  rewrite andb_true_r in Hcar, Hst. split; assumption.
Qed.

Lemma find_camel_free (coll : list doc) (exclude : value) (carId : oid) (start end' : Z) :
  camel_free coll -> find (overlapQuery exclude carId start end') coll = [].
Proof.
  unfold find. induction 1 as [| d coll Hd _ IH]; [reflexivity |].
  cbn [List.filter]. rewrite overlapQuery_no_camel by assumption. exact IH.
Qed.

Lemma findById_elem (i : oid) (coll : list doc) (d : doc) :
  findById i coll = Some d -> d ∈ coll /\ has_id i d = true.
Proof.
  unfold findById. intros H. apply find_some in H as [Hin Hid].
  split; [apply list_elem_of_In; exact Hin | exact Hid].
Qed.

Lemma update_first_Forall (P : doc -> Prop) (i : oid) (d' : doc) (coll : list doc) :
  Forall P coll -> P d' -> Forall P (update_first i d' coll).
Proof.
  intros Hcoll Hd'. induction Hcoll as [| d coll Hd Hrest IH]; cbn; [constructor |].
  destruct (has_id i d); constructor; auto.
Qed.

Lemma delete_first_Forall (P : doc -> Prop) (i : oid) (coll : list doc) :
  Forall P coll -> Forall P (delete_first i coll).
Proof.
  induction 1 as [| d coll Hd Hrest IH]; cbn; [constructor |].
  destruct (has_id i d); [assumption | constructor; auto].
Qed.

Lemma Booking_create_inr (s s' : db) (now : Z) (obj d : doc) :
  Booking_create s now obj = inr (s', d) ->
  d = <["_id" := VId (next_oid s)]> (construct BookingSchema now obj)
  /\ schema_valid d
  /\ bookings s' = bookings s ++ [d]
  /\ users s' = users s /\ cars s' = cars s /\ locations s' = locations s.
Proof.
  unfold Booking_create, schema_valid. cbv zeta.
  remember (<["_id" := VId (next_oid s)]> (construct BookingSchema now obj)) as d0 eqn:Hd0.
  destruct (invalid_paths BookingSchema d0) eqn:Hv; [| discriminate].
  intros H. injection H as Hs' Hd. subst s' d.
  split; [reflexivity |]. split; [exact Hv |].
  unfold with_bookings. cbn [bookings users cars locations].
  repeat split; reflexivity.
Qed.

Lemma created_no_camel (now : Z) (obj : doc) (i : oid) :
  no_camel (<["_id" := VId i]> (construct BookingSchema now obj)).
Proof.
  split; (rewrite lookup_insert_ne by discriminate; apply construct_undeclared).
  - apply BookingSchema_no_startDate.
  - apply BookingSchema_no_endDate.
Qed.

Lemma set_paths_no_camel (upd d : doc) : no_camel d -> no_camel (set_paths BookingSchema upd d).
Proof.
  intros [Hs He]. split.
  - rewrite set_paths_undeclared by apply BookingSchema_no_startDate. exact Hs.
  - rewrite set_paths_undeclared by apply BookingSchema_no_endDate. exact He.
Qed.

Lemma createBooking_camel_free (s : db) (r : request) :
  camel_free (bookings s) -> camel_free (bookings (createBooking s r).1).
Proof.
  intros Hs. unfold createBooking.
  destruct (createBooking_run s r) as [e | [s' d]] eqn:Hrun; [exact Hs |]. cbn.
  assert (exists obj, Booking_create s (now r) obj = inr (s', d)) as [obj Hc].
  { unfold createBooking_run in Hrun.
    repeat match type of Hrun with
           | (match ?x with _ => _ end) = inr _ => destruct x; try discriminate
           | (_ ≫= _) = inr _ => apply bind_inr in Hrun as [? [_ Hrun]]
           end.
    eauto. }
  apply Booking_create_inr in Hc as (-> & _ & -> & _).
  apply Forall_app. split; [exact Hs |].
  constructor; [apply created_no_camel | constructor].
Qed.

Lemma updateBooking_camel_free (s : db) (r : request) :
  camel_free (bookings s) -> camel_free (bookings (updateBooking s r).1).
Proof.
  intros Hs. unfold updateBooking.
  destruct (updateBooking_run s r) as [e | [s' d]] eqn:Hrun; [exact Hs |]. cbn.
  assert (exists upd, Booking_findByIdAndUpdate s (params_id r) upd = inr (s', d)) as [upd Hu].
  { unfold updateBooking_run in Hrun.
    apply bind_inr in Hrun as [? [_ Hrun]].
    repeat match type of Hrun with
           | (match ?x with _ => _ end) = inr _ => destruct x; try discriminate
           | (_ ≫= _) = inr _ => apply bind_inr in Hrun as [? [_ Hrun]]
           end.
    eauto. }
  unfold Booking_findByIdAndUpdate in Hu.
  destruct (uncastable_paths _ _); [| discriminate].
  destruct (invalid_updates _ _); [| discriminate].
  destruct (findById _ _) as [d0 |] eqn:Hf; injection Hu as <- <-; [| exact Hs].
  cbn. apply update_first_Forall; [exact Hs |].
  apply set_paths_no_camel.
  apply findById_elem in Hf as [Hin _].
  unfold camel_free in Hs. rewrite Forall_forall in Hs. auto.
Qed.

Lemma confirmBookingPayment_camel_free (s : db) (r : request) :
  camel_free (bookings s) -> camel_free (bookings (confirmBookingPayment s r).1).
Proof.
  intros Hs. unfold confirmBookingPayment.
  destruct (confirmBookingPayment_run s r) as [e | [s' d]] eqn:Hrun; [exact Hs |]. cbn.
  unfold confirmBookingPayment_run in Hrun.
  apply bind_inr in Hrun as [booking [Hf Hrun]]. apply found_inr in Hf.
  destruct (booking !! "user") as [[| owner | | |] |]; try discriminate.
  apply bind_inr in Hrun as [? [_ Hrun]].
  apply bind_inr in Hrun as [? [_ Hrun]].
  apply bind_inr in Hrun as [s'' [Hsave Hrun]].
  injection Hrun as <- <-.
  unfold Booking_save in Hsave.
  destruct (invalid_on_save _ _ _); [| discriminate].
  injection Hsave as <-. cbn.
  apply update_first_Forall; [exact Hs |].
  apply findById_elem in Hf as [Hin _].
  unfold camel_free in Hs. rewrite Forall_forall in Hs.
  destruct (Hs _ Hin) as [H1 H2].
  split; rewrite lookup_insert_ne by discriminate; assumption.
Qed.

Lemma deleteBooking_camel_free (s : db) (r : request) :
  camel_free (bookings s) -> camel_free (bookings (deleteBooking s r).1).
Proof.
  intros Hs. unfold deleteBooking.
  destruct (findById _ _); [| exact Hs].
  cbn. apply delete_first_Forall. exact Hs.
Qed.

Lemma step_camel_free (s : db) (c : call) :
  camel_free (bookings s) -> camel_free (bookings (step s c)).
Proof.
  destruct c; cbn.
  - apply createBooking_camel_free.
  - apply updateBooking_camel_free.
  - apply confirmBookingPayment_camel_free.
  - apply deleteBooking_camel_free.
Qed.

Lemma run_camel_free (cs : list call) (s : db) :
  camel_free (bookings s) -> camel_free (bookings (run s cs)).
Proof.
  revert s. induction cs as [| c cs IH]; intros s Hs; [exact Hs |].
  cbn. apply IH. apply step_camel_free. exact Hs.
Qed.

(** ** What a successful [createBooking] went through *)

Lemma createBooking_run_inr (s s' : db) (r : request) (d : doc) :
  createBooking_run s r = inr (s', d) ->
  exists userId carId start end' pickup dropoff car,
    (if isAdmin r then Body.user (body r) else Some (User.id (user r))) = Some userId
    /\ Body.car (body r) = Some carId
    /\ Body.startDate (body r) = Some (Date start)
    /\ Body.endDate (body r) = Some (Date end')
    /\ Body.pickupLocation (body r) = Some pickup
    /\ Body.dropoffLocation (body r) = Some dropoff
    /\ userId ∈ users s /\ cars s !! carId = Some car
    /\ pickup ∈ locations s /\ dropoff ∈ locations s
    /\ start < end'
    /\ (isAdmin r = true \/ midnight r <= start)
    /\ find (overlapQuery VNull carId start end') (bookings s) = []
    /\ Booking_create s (now r)
         (new_booking userId carId start end' (create_totalCost r car start end')
            pickup dropoff (create_status r)) = inr (s', d).
Proof.
  unfold createBooking_run. intros Hrun.
  destruct (if isAdmin r then _ else _) as [userId |] eqn:Hu; [| discriminate].
  destruct (Body.car (body r)) as [carId |]; [| discriminate].
  destruct (Body.startDate (body r)) as [startDate |]; [| discriminate].
  destruct (Body.endDate (body r)) as [endDate |]; [| discriminate].
  destruct (Body.pickupLocation (body r)) as [pickup |]; [| discriminate].
  destruct (Body.dropoffLocation (body r)) as [dropoff |]; [| discriminate].
  apply bind_inr in Hrun as [? [Huser Hrun]]. apply require_inr, bool_decide_eq_true in Huser.
  apply bind_inr in Hrun as [car [Hcar Hrun]]. apply found_inr in Hcar.
  apply bind_inr in Hrun as [? [Hp Hrun]]. apply require_inr, bool_decide_eq_true in Hp.
  apply bind_inr in Hrun as [? [Hd Hrun]]. apply require_inr, bool_decide_eq_true in Hd.
  destruct startDate as [| start]; [discriminate |].
  destruct endDate as [| end']; [discriminate |].
  apply bind_inr in Hrun as [? [Hlt Hrun]]. apply require_inr, negb_true_iff, Z.leb_gt in Hlt.
  apply bind_inr in Hrun as [? [Hpast Hrun]]. apply require_inr, negb_true_iff in Hpast.
  apply bind_inr in Hrun as [? [Hfree Hrun]]. apply require_inr, Nat.eqb_eq in Hfree.
  exists userId, carId, start, end', pickup, dropoff, car.
  repeat split; try assumption; try reflexivity.
  - apply andb_false_iff in Hpast as [Hpast | Hpast].
    + right. apply Z.ltb_ge. exact Hpast.
    + left. apply negb_false_iff. exact Hpast.
  - apply length_zero_iff_nil. exact Hfree.
Qed.

Lemma new_booking_fields (i : oid) (now : Z) (userId carId : oid) (start end' : Z)
    (c : jsnum) (pickup dropoff : oid) (st : string) :
  let d := <["_id" := VId i]>
             (construct BookingSchema now
                (new_booking userId carId start end' c pickup dropoff st)) in
  d !! "_id" = Some (VId i)
  /\ d !! "user" = Some (VId userId)
  /\ d !! "car" = Some (VId carId)
  /\ d !! "start_date" = Some (VDate start)
  /\ d !! "end_date" = Some (VDate end')
  /\ d !! "total_cost" = Some (VNum c)
  /\ d !! "booking_status" = Some (VStr st).
Proof. repeat split; vm_compute; reflexivity. Qed.

(** ** The claims *)

(** C1 (the code breaks it). Two bookings an administrator creates as
    confirmed, for the same car and for overlapping ranges, are both stored:
    after these two calls of [createBooking] the collection holds two distinct
    confirmed bookings of one car whose ranges overlap. *)
Theorem C1_overlapping_confirmed_bookings_stored :
  ~ no_double_booking
      (bookings
         (run db0
            [ Create (booking_request admin 0%N (Some 2%N) 10%N
                        (utc 2024 3 10) (utc 2024 3 15) CostUndefined (Some "confirmed"));
              Create (booking_request admin 0%N (Some 3%N) 10%N
                        (utc 2024 3 12) (utc 2024 3 16) CostUndefined (Some "confirmed")) ])).
Proof.
  intros H. unfold no_double_booking in H.
  match type of H with context [map range_held ?c] =>
    assert (map range_held c
            = [ (VId 10%N, true, Some (utc 2024 3 10), Some (utc 2024 3 15));
                (VId 10%N, true, Some (utc 2024 3 12), Some (utc 2024 3 16)) ]) as Hm
      by (vm_compute; reflexivity)
  end.
  rewrite Hm in H.
  destruct (H 0%nat 1%nat _ _ _ _ _ _ ltac:(discriminate) eq_refl eq_refl eq_refl) as [Hge | Hge];
    vm_compute in Hge; apply Hge; reflexivity.
Qed.

(** C2 (the code breaks it). Customer 2 books the car for 2024-03-10 to
    2024-03-15 and confirms the payment, so that the collection holds one
    confirmed booking of the car over that range.  The availability query for
    2024-03-12 to 2024-03-16 on that car then returns nothing, and the request
    of customer 3 for that range is answered 201 and stored beside the
    first.  The request for the adjacent range, 2024-03-15 to 2024-03-18, is
    answered 201 as well. *)
Theorem C2_overlapping_request_is_accepted :
  let s1 :=
    run db0
      [ Create (booking_request (customer 2%N) 0%N None 10%N
                  (utc 2024 3 10) (utc 2024 3 15) CostUndefined None);
        Confirm (booking_request (customer 2%N) 100%N None 10%N
                   (utc 2024 3 10) (utc 2024 3 15) CostUndefined None) ] in
  let r :=
    booking_request (customer 3%N) 0%N None 10%N
      (utc 2024 3 12) (utc 2024 3 16) CostUndefined None in
  map summary (bookings s1)
  = [ (Some (VId 100%N), Some (VId 10%N), Some (VStr "confirmed"),
       Some (VDate (utc 2024 3 10)), Some (VDate (utc 2024 3 15)), Some (VNum (Fin 250%Q))) ]
  /\ find (overlapQuery VNull 10%N (utc 2024 3 12) (utc 2024 3 16)) (bookings s1) = []
  /\ createBooking s1 r
     = ((createBooking s1 r).1, Json 201 (Some (data (createBooking s1 r).2)))
  /\ map summary (bookings (createBooking s1 r).1)
     = [ (Some (VId 100%N), Some (VId 10%N), Some (VStr "confirmed"),
          Some (VDate (utc 2024 3 10)), Some (VDate (utc 2024 3 15)), Some (VNum (Fin 250%Q)));
         (Some (VId 101%N), Some (VId 10%N), Some (VStr "pending_payment"),
          Some (VDate (utc 2024 3 12)), Some (VDate (utc 2024 3 16)), Some (VNum (Fin 200%Q))) ]
  /\ answered 201
       (createBooking s1
          (booking_request (customer 3%N) 0%N None 10%N
             (utc 2024 3 15) (utc 2024 3 18) CostUndefined None)) = true.
Proof.
  cbv zeta. repeat split; vm_compute; reflexivity.
Qed.

(** C3. A document [createBooking] inserts carries its dates under
    [start_date] and [end_date] and has no [startDate] and no [endDate]; the
    availability query of [createBooking] and of [updateBooking], whatever
    its car, range and excluded id, does not match it.  When the other
    documents were written through the schema as well, every availability
    query of every later state returns nothing. *)
Theorem C3_created_booking_never_matched (s s' : db) (r : request) (d : doc) :
  createBooking s r = (s', Json 201 (Some d)) ->
  d ∈ bookings s'
  /\ (exists start end',
        Body.startDate (body r) = Some (Date start)
        /\ Body.endDate (body r) = Some (Date end')
        /\ d !! "start_date" = Some (VDate start)
        /\ d !! "end_date" = Some (VDate end'))
  /\ d !! "startDate" = None /\ d !! "endDate" = None
  /\ (forall exclude carId start end',
        matches (overlapQuery exclude carId start end') d = false)
  /\ (camel_free (bookings s) ->
      forall cs exclude carId start end',
        find (overlapQuery exclude carId start end') (bookings (run s' cs)) = []).
Proof.
  unfold createBooking. intros Hc.
  destruct (createBooking_run s r) as [e | [s1 d1]] eqn:Hrun; [discriminate |].
  injection Hc as -> ->.
  pose proof (createBooking_camel_free s r) as Hpres.
  unfold createBooking in Hpres. rewrite Hrun in Hpres. cbn in Hpres.
  apply createBooking_run_inr in Hrun
    as (userId & carId & start & end' & pickup & dropoff & car & _ & _ & Hsd & Hed &
        _ & _ & _ & _ & _ & _ & _ & _ & _ & Hcreate).
  apply Booking_create_inr in Hcreate as (Hd & _ & Hcoll & _).
  assert (no_camel d) as Hnc by (rewrite Hd; apply created_no_camel).
  split; [rewrite Hcoll; apply elem_of_app; right; apply list_elem_of_singleton; reflexivity |].
  split.
  { exists start, end'. repeat split; try assumption; rewrite Hd.
    - apply (new_booking_fields (next_oid s) (now r) userId carId start end').
    - apply (new_booking_fields (next_oid s) (now r) userId carId start end'). }
  destruct Hnc as [Hn1 Hn2].
  repeat split; try assumption.
  - intros. apply overlapQuery_no_camel. split; assumption.
  - intros Hs cs exclude carId' start' end''.
    apply find_camel_free, run_camel_free, Hpres, Hs.
Qed.

Lemma C3_created_booking_never_matched_witness :
  let r := booking_request (customer 2%N) 0%N None 10%N
             (utc 2024 3 10) (utc 2024 3 15) CostUndefined None in
  let d := data (createBooking db0 r).2 in
  createBooking db0 r = ((createBooking db0 r).1, Json 201 (Some d))
  /\ d !! "start_date" = Some (VDate (utc 2024 3 10))
  /\ d !! "startDate" = None
  /\ matches (overlapQuery VNull 10%N (utc 2024 3 12) (utc 2024 3 16)) d = false.
Proof.
  intros r d.
  assert (createBooking db0 r = ((createBooking db0 r).1, Json 201 (Some d))) as H
    by (apply (answered_eq 201); vm_compute; reflexivity).
  split; [exact H |].
  destruct (C3_created_booking_never_matched _ _ _ _ H) as (_ & _ & Hs & _ & Hm & _).
  split; [vm_compute; reflexivity |].
  split; [exact Hs | apply Hm].
Defined.

(** C4 (the code breaks it). The request the account page sends to cancel a
    booking, [PUT /bookings/<id>/cancel], matches no route of the bookings
    router: whatever the booking and its status, no handler runs and the
    database is as before. *)
Theorem C4_cancel_request_has_no_route (s : db) (bookingId : oid) (r : request) :
  router s (handleUserCancelBooking bookingId).1 (handleUserCancelBooking bookingId).2 r
  = (s, NoRoute).
Proof. reflexivity. Qed.

(** The route that removes a booking is the administrator's: for any other
    role [authorize] answers 403 and the database is as before. *)
Lemma delete_is_admin_only (s : db) (seg : string) (r : request) :
  isAdmin r = false ->
  exists msg, router s DELETE [seg] r = (s, Next (ErrorResponse msg 403)).
Proof.
  unfold isAdmin, router, routes, authorize. intros Hrole.
  cbn [existsb]. rewrite Hrole. cbn [orb require fail].
  eexists. reflexivity.
Qed.

(** ** Validation on save *)





Lemma findById_update_first (i : oid) (d d' : doc) (coll : list doc) :
  findById i coll = Some d -> has_id i d' = true ->
  findById i (update_first i d' coll) = Some d'.
Proof.
  unfold findById. intros Hf Hid. induction coll as [| d0 coll IH]; [discriminate |].
  cbn in *. destruct (has_id i d0) eqn:H0; cbn.
  - rewrite Hid. reflexivity.
  - rewrite H0. apply IH, Hf.
Qed.

Lemma update_first_length (i : oid) (d' : doc) (coll : list doc) :
  length (update_first i d' coll) = length coll.
Proof.
  induction coll as [| d0 coll IH]; cbn; [reflexivity |].
  destruct (has_id i d0); cbn; congruence.
Qed.

Lemma status_is (d : doc) (st : string) :
  value_eqb (field d "booking_status") (VStr st) = true <-> d !! "booking_status" = Some (VStr st).
Proof.
  unfold field. destruct (d !! "booking_status") as [[| | s | |] |]; cbn;
    try (split; [discriminate | intros [=]]).
  rewrite String.eqb_eq. split; [intros -> | intros [=]]; auto.
Qed.



(** ** Days and costs *)






(** ** What a successful [updateBooking] went through *)

Lemma set_paths_declared (schema : list (string * SchemaType)) (upd d : doc) (k : string)
    (v : value) :
  k ∈ map fst schema -> upd !! k = Some v -> set_paths schema upd d !! k = Some v.
Proof.
  induction schema as [| [k' st] schema IH]; cbn; intros Hk Hv.
  - apply elem_of_nil in Hk. contradiction.
  - destruct (decide (k' = k)) as [-> | Hne].
    + rewrite Hv. apply lookup_insert_eq.
    + apply elem_of_cons in Hk as [Hk | Hk]; [congruence |].
      destruct (upd !! k'); [rewrite lookup_insert_ne by assumption |]; auto.
Qed.

Lemma Booking_findByIdAndUpdate_inr (s s' : db) (i : oid) (upd : doc) (res : option doc)
    (old : doc) :
  findById i (bookings s) = Some old ->
  Booking_findByIdAndUpdate s i upd = inr (s', res) ->
  res = Some (set_paths BookingSchema upd old)
  /\ bookings s' = update_first i (set_paths BookingSchema upd old) (bookings s)
  /\ uncastable_paths BookingSchema upd = []
  /\ invalid_updates BookingSchema upd = [].
Proof.
  intros Hold. unfold Booking_findByIdAndUpdate. rewrite Hold.
  destruct (uncastable_paths BookingSchema upd); [| discriminate].
  destruct (invalid_updates BookingSchema upd); [| discriminate].
  cbv beta iota zeta. intros H. injection H as <- <-.
  repeat split; reflexivity.
Qed.

Lemma updateBooking_run_inr (s s' : db) (r : request) (res : option doc) :
  updateBooking_run s r = inr (s', res) ->
  exists old userId carId start end' pickup dropoff st car,
    findById (params_id r) (bookings s) = Some old
    /\ Body.car (body r) = Some carId
    /\ Body.startDate (body r) = Some (Date start)
    /\ Body.endDate (body r) = Some (Date end')
    /\ cars s !! carId = Some car
    /\ start < end'
    /\ find (overlapQuery (VId (params_id r)) carId start end') (bookings s) = []
    /\ Booking_findByIdAndUpdate s (params_id r)
         (updateData userId carId start end' pickup dropoff st
            (update_finalCost r car start end')) = inr (s', res).
Proof.
  unfold updateBooking_run. intros Hrun.
  apply bind_inr in Hrun as [old [Hold Hrun]]. apply found_inr in Hold.
  destruct (Body.user (body r)) as [userId |]; [| discriminate].
  destruct (Body.car (body r)) as [carId |]; [| discriminate].
  destruct (Body.startDate (body r)) as [startDate |]; [| discriminate].
  destruct (Body.endDate (body r)) as [endDate |]; [| discriminate].
  destruct (Body.pickupLocation (body r)) as [pickup |]; [| discriminate].
  destruct (Body.dropoffLocation (body r)) as [dropoff |]; [| discriminate].
  destruct (truthy (Body.booking_status (body r))) as [st |]; [| discriminate].
  apply bind_inr in Hrun as [? [_ Hrun]].
  apply bind_inr in Hrun as [car [Hcar Hrun]]. apply found_inr in Hcar.
  apply bind_inr in Hrun as [? [_ Hrun]].
  apply bind_inr in Hrun as [? [_ Hrun]].
  destruct startDate as [| start]; [discriminate |].
  destruct endDate as [| end']; [discriminate |].
  apply bind_inr in Hrun as [? [Hlt Hrun]]. apply require_inr, negb_true_iff, Z.leb_gt in Hlt.
  apply bind_inr in Hrun as [? [Hfree Hrun]]. apply require_inr, Nat.eqb_eq in Hfree.
  exists old, userId, carId, start, end', pickup, dropoff, st, car.
  repeat split; try assumption; try reflexivity.
  apply length_zero_iff_nil. exact Hfree.
Qed.

Lemma updateData_total_cost (userId carId : oid) (start end' : Z) (pickup dropoff : oid)
    (st : string) (c : jsnum) :
  updateData userId carId start end' pickup dropoff st c !! "total_cost" = Some (VNum c).
Proof. vm_compute. reflexivity. Qed.







(** ** Rejections *)




(** ** The conflict of an update *)

Lemma updateBooking_conflict (s : db) (r : request) (car : Car.t) :
  (updateBooking s r).2 = Next (not_available car) ->
  exists carId start end',
    find (overlapQuery (VId (params_id r)) carId start end') (bookings s) <> [].
Proof.
  unfold updateBooking.
  destruct (updateBooking_run s r) as [e | [s' res]] eqn:Hrun; cbn [snd]; [| discriminate].
  intros [= ->]. unfold updateBooking_run in Hrun.
  apply bind_inl in Hrun as [Hrun | [old [_ Hrun]]];
    [apply found_inl in Hrun as [_ Hrun]; other_error Hrun |].
  destruct (Body.user (body r)) as [userId |]; [| other_error Hrun].
  destruct (Body.car (body r)) as [carId |]; [| other_error Hrun].
  destruct (Body.startDate (body r)) as [startDate |]; [| other_error Hrun].
  destruct (Body.endDate (body r)) as [endDate |]; [| other_error Hrun].
  destruct (Body.pickupLocation (body r)) as [pickup |]; [| other_error Hrun].
  destruct (Body.dropoffLocation (body r)) as [dropoff |]; [| other_error Hrun].
  destruct (truthy (Body.booking_status (body r))) as [st |]; [| other_error Hrun].
  apply bind_inl in Hrun as [Hrun | [? [_ Hrun]]];
    [apply require_inl in Hrun as [_ Hrun]; other_error Hrun |].
  apply bind_inl in Hrun as [Hrun | [car' [_ Hrun]]];
    [apply found_inl in Hrun as [_ Hrun]; other_error Hrun |].
  apply bind_inl in Hrun as [Hrun | [? [_ Hrun]]];
    [apply require_inl in Hrun as [_ Hrun]; other_error Hrun |].
  apply bind_inl in Hrun as [Hrun | [? [_ Hrun]]];
    [apply require_inl in Hrun as [_ Hrun]; other_error Hrun |].
  destruct startDate as [| start]; [other_error Hrun |].
  destruct endDate as [| end']; [other_error Hrun |].
  apply bind_inl in Hrun as [Hrun | [? [_ Hrun]]];
    [apply require_inl in Hrun as [_ Hrun]; other_error Hrun |].
  apply bind_inl in Hrun as [Hrun | [? [_ Hrun]]].
  - apply require_inl in Hrun as [Hlen _].
    exists carId, start, end'. intros Hnil. rewrite Hnil in Hlen. discriminate.
  - unfold Booking_findByIdAndUpdate in Hrun.
    destruct (uncastable_paths _ _); [| discriminate].
    destruct (invalid_updates _ _); [| discriminate].
    destruct (findById _ _); discriminate.
Qed.

Lemma overlapQuery_excluded (i : oid) (d : doc) (carId : oid) (start end' : Z) :
  has_id i d = true -> matches (overlapQuery (VId i) carId start end') d = false.
Proof.
  unfold has_id, overlapQuery. intros Hid.
  cbn [matches forallb eval_op]. rewrite Hid. reflexivity.
Qed.

(** C9. The availability query of [updateBooking] does not match the
    booking being updated, whatever the car and the dates of the request, so
    also when they are the ones the booking already holds; when the update
    fails with the conflict error, the query matched a stored document with
    another id. *)
Theorem C9_update_excludes_itself (s : db) (r : request) :
  (forall d carId start end',
     has_id (params_id r) d = true ->
     matches (overlapQuery (VId (params_id r)) carId start end') d = false)
  /\ (forall car,
        (updateBooking s r).2 = Next (not_available car) ->
        exists d carId start end',
          d ∈ bookings s
          /\ has_id (params_id r) d = false
          /\ matches (overlapQuery (VId (params_id r)) carId start end') d = true).
Proof.
  split.
  - intros d carId start end'. apply overlapQuery_excluded.
  - intros car Hconflict.
    apply updateBooking_conflict in Hconflict as (carId & start & end' & Hne).
    destruct (find _ _) as [| d rest] eqn:Hfind; [contradiction |].
    assert (In d (find (overlapQuery (VId (params_id r)) carId start end') (bookings s)))
      as Hin by (rewrite Hfind; left; reflexivity).
    unfold find in Hin. apply filter_In in Hin as [Hin Hm].
    exists d, carId, start, end'.
    split; [apply list_elem_of_In; exact Hin |]. split; [| exact Hm].
    destruct (has_id (params_id r) d) eqn:Hid; [| reflexivity].
    rewrite (overlapQuery_excluded _ _ carId start end' Hid) in Hm. discriminate.
Qed.

Lemma C9_update_excludes_itself_witness :
  let same := booking_request admin 100%N (Some 2%N) 10%N
                (utc 2024 3 10) (utc 2024 3 15) CostUndefined (Some "confirmed") in
  let moved := booking_request admin 100%N (Some 2%N) 10%N
                 (utc 2024 3 12) (utc 2024 3 22) CostUndefined (Some "confirmed") in
  answered 200 (updateBooking db_foreign same) = true
  /\ (updateBooking db_foreign moved).2 = Next (not_available camry)
  /\ exists d carId start end',
       d ∈ bookings db_foreign
       /\ has_id 100%N d = false
       /\ matches (overlapQuery (VId 100%N) carId start end') d = true.
Proof.
  intros same moved.
  assert ((updateBooking db_foreign moved).2 = Next (not_available camry)) as Hconflict
    by (vm_compute; reflexivity).
  split; [vm_compute; reflexivity |]. split; [exact Hconflict |].
  destruct (C9_update_excludes_itself db_foreign moved) as [_ Hother].
  exact (Hother camry Hconflict).
Defined.

(** ** The two overlap tests *)

Lemma field_Some (d : doc) (k : string) (v : value) : d !! k = Some v -> field d k = v.
Proof. unfold field. intros ->. reflexivity. Qed.

(** C10. On a document that carries the dates [es < ee] under the keys the
    query reads, and for a requested range [start < end'], the [$or] of the
    three range clauses holds exactly when the half-open ranges overlap:
    [es < end'] and [ee > start]. *)
Theorem C10_or_of_ranges_is_half_open_overlap (d : doc) (es ee start end' : Z) :
  d !! "startDate" = Some (VDate es) ->
  d !! "endDate" = Some (VDate ee) ->
  es < ee -> start < end' ->
  matches (or_of_ranges start end') d = half_open_overlap es ee start end'
  /\ (matches (or_of_ranges start end') d = true <-> es < end' /\ ee > start).
Proof.
  intros Hs He Hexisting Hrequested.
  assert (matches (or_of_ranges start end') d = half_open_overlap es ee start end') as Heq.
  { unfold or_of_ranges, half_open_overlap.
    cbn [matches existsb forallb eval_op].
    rewrite (field_Some d "startDate" _ Hs), (field_Some d "endDate" _ He).
    cbn [value_cmp].
    destruct (Z.compare_spec es end'), (Z.compare_spec es start),
      (Z.compare_spec ee start), (Z.compare_spec ee end'),
      (Z.ltb_spec es end'), (Z.ltb_spec start ee);
      cbn [andb orb]; try reflexivity; exfalso; lia. }
  split; [exact Heq |].
  rewrite Heq. unfold half_open_overlap.
  rewrite andb_true_iff, !Z.ltb_lt. lia.
Qed.

Lemma C10_or_of_ranges_is_half_open_overlap_witness :
  let d := foreign_booking 100%N 2%N 10%N (utc 2024 3 10) (utc 2024 3 15) "confirmed" in
  matches (or_of_ranges (utc 2024 3 12) (utc 2024 3 16)) d = true
  /\ matches (or_of_ranges (utc 2024 3 15) (utc 2024 3 18)) d = false.
Proof.
  intros d.
  assert (d !! "startDate" = Some (VDate (utc 2024 3 10))) as Hs by (vm_compute; reflexivity).
  assert (d !! "endDate" = Some (VDate (utc 2024 3 15))) as He by (vm_compute; reflexivity).
  assert (utc 2024 3 10 < utc 2024 3 15) as Hlt by (vm_compute; reflexivity).
  split.
  - destruct (C10_or_of_ranges_is_half_open_overlap d _ _ (utc 2024 3 12) (utc 2024 3 16)
                Hs He Hlt ltac:(vm_compute; reflexivity)) as [-> _].
    vm_compute. reflexivity.
  - destruct (C10_or_of_ranges_is_half_open_overlap d _ _ (utc 2024 3 15) (utc 2024 3 18)
                Hs He Hlt ltac:(vm_compute; reflexivity)) as [-> _].
    vm_compute. reflexivity.
Defined.

(** ** Further properties of [createBooking] *)

Lemma new_booking_locations (i : oid) (now : Z) (userId carId : oid) (start end' : Z)
    (c : jsnum) (pickup dropoff : oid) (st : string) :
  let d := <["_id" := VId i]>
             (construct BookingSchema now
                (new_booking userId carId start end' c pickup dropoff st)) in
  d !! "pickup_location" = Some (VId pickup)
  /\ d !! "dropoff_location" = Some (VId dropoff)
  /\ d !! "createdAt" = Some (VDate now).
Proof. repeat split; vm_compute; reflexivity. Qed.

(** X1. A booking [createBooking] stores refers to a user, a car and two
    locations that exist; for a caller who is not an administrator the user
    is the caller, whatever [user] the body names, and for an administrator
    the one the body names. *)
Theorem createBooking_references (s s' : db) (r : request) (d : doc) :
  createBooking s r = (s', Json 201 (Some d)) ->
  exists u c p q,
    d !! "user" = Some (VId u) /\ u ∈ users s
    /\ d !! "car" = Some (VId c) /\ is_Some (cars s !! c)
    /\ d !! "pickup_location" = Some (VId p) /\ p ∈ locations s
    /\ d !! "dropoff_location" = Some (VId q) /\ q ∈ locations s
    /\ (isAdmin r = false -> u = User.id (user r))
    /\ (isAdmin r = true -> Body.user (body r) = Some u).
Proof.
  unfold createBooking. intros Hc.
  destruct (createBooking_run s r) as [e | [s1 d1]] eqn:Hrun; [discriminate |].
  injection Hc as -> ->.
  apply createBooking_run_inr in Hrun
    as (userId & carId & start & end' & pickup & dropoff & car & Hu & _ & _ & _ &
        _ & _ & Huser & Hcar & Hp & Hq & _ & _ & _ & Hcreate).
  apply Booking_create_inr in Hcreate as (Hd & _).
  pose proof (new_booking_fields (next_oid s) (now r) userId carId start end'
                (create_totalCost r car start end') pickup dropoff (create_status r))
    as (_ & Hfu & Hfc & _).
  pose proof (new_booking_locations (next_oid s) (now r) userId carId start end'
                (create_totalCost r car start end') pickup dropoff (create_status r))
    as (Hfp & Hfq & _).
  rewrite <- Hd in Hfu, Hfc, Hfp, Hfq.
  exists userId, carId, pickup, dropoff.
  repeat split; try assumption; eauto.
  - intros Hna. rewrite Hna in Hu. injection Hu as <-. reflexivity.
  - intros Ha. rewrite Ha in Hu. exact Hu.
Qed.

Lemma createBooking_references_witness :
  let r := booking_request (customer 2%N) 0%N (Some 3%N) 10%N
             (utc 2024 3 10) (utc 2024 3 15) CostUndefined None in
  let d := data (createBooking db0 r).2 in
  createBooking db0 r = ((createBooking db0 r).1, Json 201 (Some d))
  /\ d !! "user" = Some (VId 2%N).
Proof.
  intros r d.
  assert (createBooking db0 r = ((createBooking db0 r).1, Json 201 (Some d))) as H
    by (apply (answered_eq 201); vm_compute; reflexivity).
  split; [exact H |].
  destruct (createBooking_references _ _ _ _ H) as (u & c & p & q & Hu & _ & _ & _ & _ & _ & _ & _ & Hself & _).
  rewrite Hu. rewrite (Hself eq_refl). reflexivity.
Defined.

(** X2. For a request that names an existing user, car and locations and
    whose dates parse with the start before the end, [createBooking] answers
    with the past-start error exactly when the caller is not an administrator
    and the start is before today's midnight; nothing is stored then. *)
Theorem createBooking_past_start (s : db) (r : request) (userId carId pickup dropoff : oid)
    (start end' : Z) :
  (if isAdmin r then Body.user (body r) else Some (User.id (user r))) = Some userId ->
  Body.car (body r) = Some carId ->
  Body.pickupLocation (body r) = Some pickup ->
  Body.dropoffLocation (body r) = Some dropoff ->
  Body.startDate (body r) = Some (Date start) ->
  Body.endDate (body r) = Some (Date end') ->
  userId ∈ users s -> is_Some (cars s !! carId) ->
  pickup ∈ locations s -> dropoff ∈ locations s ->
  start < end' ->
  ((createBooking s r).2 = Next past_start <-> isAdmin r = false /\ start < midnight r)
  /\ ((createBooking s r).2 = Next past_start -> (createBooking s r).1 = s).
Proof.
  intros Hu Hc Hp Hd Hs He Huser [car Hcar] Hpick Hdrop Hlt.
  assert ((end' <=? start) = false) as Hle by (apply Z.leb_gt; exact Hlt).
  unfold createBooking, createBooking_run. rewrite Hu, Hc, Hp, Hd, Hs, He, Hcar.
  rewrite !bool_decide_eq_true_2 by assumption.
  run_guards. rewrite Hle. cbn [negb]. run_guards.
  destruct (isAdmin r) eqn:Hadmin; cbn [negb andb].
  - rewrite andb_false_r. cbn [negb]. run_guards.
    destruct (length (find _ _) =? 0)%nat; run_guards.
    + unfold Booking_create. cbv zeta.
      destruct (invalid_paths BookingSchema _); cbn [mret M_ret fail fst snd];
        (split; [split; [discriminate | intros [[=] _]] | discriminate]).
    + split; [split; [intros [= H]; unfold not_available in H; injection H as H;
                      cbn [String.append] in H; discriminate H
                     | intros [[=] _]]
             | reflexivity].
  - rewrite andb_true_r.
    destruct (start <? midnight r) eqn:Hpast; cbn [negb]; run_guards.
    + split; [split; [intros _; split; [reflexivity | apply Z.ltb_lt; exact Hpast]
                     | reflexivity]
             | reflexivity].
    + apply Z.ltb_ge in Hpast.
      destruct (length (find _ _) =? 0)%nat; run_guards.
      * unfold Booking_create. cbv zeta.
        destruct (invalid_paths BookingSchema _); cbn [mret M_ret fail fst snd];
          (split; [split; [discriminate | intros [_ ?]; lia] | discriminate]).
      * split; [split; [intros [= H]; unfold not_available in H; injection H as H;
                        cbn [String.append] in H; discriminate H
                       | intros [_ ?]; lia]
               | reflexivity].
Qed.

Lemma createBooking_past_start_witness :
  let r := booking_request (customer 2%N) 0%N None 10%N
             (utc 2023 12 30) (utc 2024 1 3) CostUndefined None in
  (createBooking db0 r).2 = Next past_start /\ (createBooking db0 r).1 = db0.
Proof.
  intros r.
  destruct (createBooking_past_start db0 r 2%N 10%N 20%N 20%N (utc 2023 12 30) (utc 2024 1 3))
    as [Hiff Hsame];
    try reflexivity; try (vm_compute; reflexivity);
    try (exists camry; vm_compute; reflexivity);
    try (apply bool_decide_eq_true_1; vm_compute; reflexivity).
  assert ((createBooking db0 r).2 = Next past_start) as H.
  { apply Hiff. split; [reflexivity | vm_compute; reflexivity]. }
  split; [exact H | exact (Hsame H)].
Defined.

Lemma findById_app (i : oid) (l1 l2 : list doc) :
  findById i (l1 ++ l2)
  = match findById i l1 with
    | Some d => Some d
    | None => findById i l2
    end.
Proof.
  unfold findById. induction l1 as [| d l1 IH]; cbn [app List.find]; [reflexivity |].
  destruct (has_id i d); [reflexivity | exact IH].
Qed.

(** X3. A successful [createBooking] appends exactly the booking it answers
    with, under the next id, and touches neither the other bookings nor the
    users, cars and locations; when no stored booking has that id, looking the
    id up afterwards gives the booking back. *)
Theorem createBooking_then_findById (s s' : db) (r : request) (d : doc) :
  createBooking s r = (s', Json 201 (Some d)) ->
  bookings s' = bookings s ++ [d]
  /\ d !! "_id" = Some (VId (next_oid s))
  /\ users s' = users s /\ cars s' = cars s /\ locations s' = locations s
  /\ (findById (next_oid s) (bookings s) = None ->
      findById (next_oid s) (bookings s') = Some d).
Proof.
  unfold createBooking. intros Hc.
  destruct (createBooking_run s r) as [e | [s1 d1]] eqn:Hrun; [discriminate |].
  injection Hc as -> ->.
  apply createBooking_run_inr in Hrun
    as (userId & carId & start & end' & pickup & dropoff & car & _ & _ & _ & _ &
        _ & _ & _ & _ & _ & _ & _ & _ & _ & Hcreate).
  apply Booking_create_inr in Hcreate as (Hd & _ & Hcoll & Hus & Hcs & Hls).
  assert (d !! "_id" = Some (VId (next_oid s))) as Hid
    by (rewrite Hd; apply lookup_insert_eq).
  repeat split; try assumption.
  intros Hfresh. rewrite Hcoll, findById_app, Hfresh.
  unfold findById. cbn [List.find].
  unfold has_id, field. rewrite Hid. cbn [default from_option id value_eqb].
  rewrite N.eqb_refl. reflexivity.
Qed.

Lemma createBooking_then_findById_witness :
  let r := booking_request (customer 2%N) 0%N None 10%N
             (utc 2024 3 10) (utc 2024 3 15) CostUndefined None in
  let d := data (createBooking db0 r).2 in
  createBooking db0 r = ((createBooking db0 r).1, Json 201 (Some d))
  /\ findById 100%N (bookings (createBooking db0 r).1) = Some d.
Proof.
  intros r d.
  assert (createBooking db0 r = ((createBooking db0 r).1, Json 201 (Some d))) as H
    by (apply (answered_eq 201); vm_compute; reflexivity).
  split; [exact H |].
  destruct (createBooking_then_findById _ _ _ _ H) as (_ & _ & _ & _ & _ & Hfind).
  apply Hfind. reflexivity.
Defined.

(** ** The shape of each write *)

Lemma createBooking_shape (s : db) (r : request) :
  (createBooking s r).1 = s
  \/ exists userId carId start end' pickup dropoff car d,
       d = <["_id" := VId (next_oid s)]>
             (construct BookingSchema (now r)
                (new_booking userId carId start end' (create_totalCost r car start end')
                   pickup dropoff (create_status r)))
       /\ (if isAdmin r then Body.user (body r) else Some (User.id (user r))) = Some userId
       /\ start < end' /\ schema_valid d
       /\ bookings (createBooking s r).1 = bookings s ++ [d].
Proof.
  unfold createBooking.
  destruct (createBooking_run s r) as [e | [s' d]] eqn:Hrun; [left; reflexivity |].
  right. cbn [fst].
  apply createBooking_run_inr in Hrun
    as (userId & carId & start & end' & pickup & dropoff & car & Hu & _ & _ & _ &
        _ & _ & _ & _ & _ & _ & Hlt & _ & _ & Hcreate).
  apply Booking_create_inr in Hcreate as (Hd & Hv & Hcoll & _).
  exists userId, carId, start, end', pickup, dropoff, car, d. auto.
Qed.

Lemma updateBooking_shape (s : db) (r : request) :
  (updateBooking s r).1 = s
  \/ exists old userId carId start end' pickup dropoff st c,
       findById (params_id r) (bookings s) = Some old
       /\ invalid_updates BookingSchema
            (updateData userId carId start end' pickup dropoff st c) = []
       /\ bookings (updateBooking s r).1
          = update_first (params_id r)
              (set_paths BookingSchema
                 (updateData userId carId start end' pickup dropoff st c) old)
              (bookings s).
Proof.
  unfold updateBooking.
  destruct (updateBooking_run s r) as [e | [s' res]] eqn:Hrun; [left; reflexivity |].
  right. cbn [fst].
  apply updateBooking_run_inr in Hrun
    as (old & userId & carId & start & end' & pickup & dropoff & st & car &
        Hold & _ & _ & _ & _ & _ & _ & Hupd).
  apply (Booking_findByIdAndUpdate_inr _ _ _ _ _ _ Hold) in Hupd as (_ & Hcoll & _ & Hinv).
  exists old, userId, carId, start, end', pickup, dropoff, st,
    (update_finalCost r car start end'). auto.
Qed.

Lemma confirmBookingPayment_shape (s : db) (r : request) :
  (confirmBookingPayment s r).1 = s
  \/ exists booking owner,
       findById (params_id r) (bookings s) = Some booking
       /\ booking !! "user" = Some (VId owner)
       /\ (owner = User.id (user r) \/ isAdmin r = true)
       /\ booking !! "booking_status" = Some (VStr "pending_payment")
       /\ bookings (confirmBookingPayment s r).1
          = update_first (params_id r)
              (<["booking_status" := VStr "confirmed"]> booking) (bookings s).
Proof.
  unfold confirmBookingPayment.
  destruct (confirmBookingPayment_run s r) as [e | [s' d]] eqn:Hrun; [left; reflexivity |].
  right. cbn [fst].
  unfold confirmBookingPayment_run in Hrun.
  apply bind_inr in Hrun as [booking [Hf Hrun]]. apply found_inr in Hf.
  destruct (booking !! "user") as [[| owner | | |] |] eqn:Hu; try discriminate.
  apply bind_inr in Hrun as [? [Hauth Hrun]]. apply require_inr, negb_true_iff in Hauth.
  apply bind_inr in Hrun as [? [Hst Hrun]]. apply require_inr, status_is in Hst.
  apply bind_inr in Hrun as [s'' [Hsave Hrun]].
  injection Hrun as <- <-.
  unfold Booking_save in Hsave.
  destruct (invalid_on_save _ _ _); [| discriminate].
  injection Hsave as <-. cbn [bookings with_bookings].
  exists booking, owner. repeat split; try assumption; try reflexivity.
  apply andb_false_iff in Hauth as [Hauth | Hauth].
  - left. apply negb_false_iff, N.eqb_eq in Hauth. exact Hauth.
  - right. apply negb_false_iff in Hauth. exact Hauth.
Qed.

Lemma deleteBooking_shape (s : db) (r : request) :
  (findById (params_id r) (bookings s) = None /\ (deleteBooking s r).1 = s)
  \/ (is_Some (findById (params_id r) (bookings s))
      /\ bookings (deleteBooking s r).1 = delete_first (params_id r) (bookings s)).
Proof.
  unfold deleteBooking.
  destruct (findById _ _) eqn:Hf; [right | left]; cbn [fst]; eauto.
Qed.

(** A property of documents that every write establishes or keeps is kept by
    every call. *)
Lemma step_Forall (P : doc -> Prop) (s : db) (c : call) :
  (forall i now userId carId start end' cost pickup dropoff st,
     start < end' ->
     schema_valid (<["_id" := VId i]>
                     (construct BookingSchema now
                        (new_booking userId carId start end' cost pickup dropoff st))) ->
     P (<["_id" := VId i]>
          (construct BookingSchema now
             (new_booking userId carId start end' cost pickup dropoff st)))) ->
  (forall old userId carId start end' pickup dropoff st cost,
     P old ->
     invalid_updates BookingSchema
       (updateData userId carId start end' pickup dropoff st cost) = [] ->
     P (set_paths BookingSchema
          (updateData userId carId start end' pickup dropoff st cost) old)) ->
  (forall old, P old -> P (<["booking_status" := VStr "confirmed"]> old)) ->
  Forall P (bookings s) -> Forall P (bookings (step s c)).
Proof.
  intros Hcreate Hupdate Hconfirm Hs.
  assert (forall i d, findById i (bookings s) = Some d -> P d) as Hfound.
  { intros i d [Hin _]%findById_elem. rewrite Forall_forall in Hs. auto. }
  destruct c as [r | r | r | r]; cbn [step].
  - destruct (createBooking_shape s r)
      as [-> | (userId & carId & start & end' & pickup & dropoff & car & d &
                -> & _ & Hlt & Hv & ->)]; [exact Hs |].
    apply Forall_app. split; [exact Hs |]. constructor; [| constructor].
    apply Hcreate; assumption.
  - destruct (updateBooking_shape s r)
      as [-> | (old & userId & carId & start & end' & pickup & dropoff & st & c &
                Hold & Hinv & ->)]; [exact Hs |].
    apply update_first_Forall; [exact Hs |].
    apply Hupdate; [apply (Hfound _ _ Hold) | exact Hinv].
  - destruct (confirmBookingPayment_shape s r)
      as [-> | (booking & owner & Hf & _ & _ & _ & ->)]; [exact Hs |].
    apply update_first_Forall; [exact Hs |].
    apply Hconfirm, (Hfound _ _ Hf).
  - destruct (deleteBooking_shape s r) as [[_ ->] | [_ ->]]; [exact Hs |].
    apply delete_first_Forall. exact Hs.
Qed.

Lemma run_Forall (P : doc -> Prop) (cs : list call) (s : db) :
  (forall s c, Forall P (bookings s) -> Forall P (bookings (step s c))) ->
  Forall P (bookings s) -> Forall P (bookings (run s cs)).
Proof.
  intros Hstep. revert s. induction cs as [| c cs IH]; intros s Hs; [exact Hs |].
  cbn. apply IH, Hstep, Hs.
Qed.

Lemma set_paths_untouched (schema : list (string * SchemaType)) (upd d : doc) (k : string) :
  upd !! k = None -> set_paths schema upd d !! k = d !! k.
Proof.
  intros Hk. induction schema as [| [k' st] schema IH]; cbn; [reflexivity |].
  destruct (upd !! k') as [v |] eqn:Hk'; [| exact IH].
  rewrite lookup_insert_ne by congruence. exact IH.
Qed.






(** ** Dates *)

Lemma updateData_undeclared (userId carId : oid) (start end' : Z) (pickup dropoff : oid)
    (st : string) (c : jsnum) :
  let upd := updateData userId carId start end' pickup dropoff st c in
  upd !! "start_date" = None /\ upd !! "end_date" = None
  /\ upd !! "createdAt" = None /\ upd !! "_id" = None.
Proof. repeat split; vm_compute; reflexivity. Qed.

Lemma updateData_fields (userId carId : oid) (start end' : Z) (pickup dropoff : oid)
    (st : string) (c : jsnum) :
  let upd := updateData userId carId start end' pickup dropoff st c in
  upd !! "user" = Some (VId userId) /\ upd !! "car" = Some (VId carId)
  /\ upd !! "pickup_location" = Some (VId pickup)
  /\ upd !! "dropoff_location" = Some (VId dropoff)
  /\ upd !! "booking_status" = Some (VStr st).
Proof. repeat split; vm_compute; reflexivity. Qed.

(** X5. Every call keeps the dates of the stored bookings in order: when
    each stored booking starts before it ends, so does each booking of every
    later state. *)
Theorem run_keeps_dates_ordered (s : db) (cs : list call) :
  Forall dates_ordered (bookings s) ->
  Forall dates_ordered (bookings (run s cs)).
Proof.
  apply run_Forall. intros s0 c. apply step_Forall.
  - intros i now userId carId start end' cost pickup dropoff st Hlt _ a b Ha Hb.
    pose proof (new_booking_fields i now userId carId start end' cost pickup dropoff st)
      as (_ & _ & _ & Hs & He & _).
    cbv zeta in Hs, He. rewrite Hs in Ha. rewrite He in Hb.
    injection Ha as <-. injection Hb as <-. exact Hlt.
  - intros old userId carId start end' pickup dropoff st cost Hold _ a b.
    pose proof (updateData_undeclared userId carId start end' pickup dropoff st cost)
      as (Hs & He & _).
    cbv zeta in Hs, He. rewrite !set_paths_untouched by assumption. apply Hold.
  - intros old Hold a b. rewrite !lookup_insert_ne by discriminate. apply Hold.
Qed.

Lemma run_keeps_dates_ordered_witness :
  let cs := [ Create (booking_request (customer 2%N) 0%N None 10%N
                        (utc 2024 3 10) (utc 2024 3 15) CostUndefined None);
              Update (booking_request admin 100%N (Some 2%N) 10%N
                        (utc 2024 3 20) (utc 2024 3 22) CostUndefined (Some "confirmed")) ] in
  length (bookings (run db0 cs)) = 1%nat
  /\ Forall dates_ordered (bookings (run db0 cs)).
Proof.
  intros cs. split; [vm_compute; reflexivity |].
  apply (run_keeps_dates_ordered db0 cs). constructor.
Defined.

Lemma updateBooking_run_fields (s s' : db) (r : request) (res : option doc) :
  updateBooking_run s r = inr (s', res) ->
  exists old userId carId start end' pickup dropoff st car,
    findById (params_id r) (bookings s) = Some old
    /\ Body.user (body r) = Some userId
    /\ Body.car (body r) = Some carId
    /\ Body.startDate (body r) = Some (Date start)
    /\ Body.endDate (body r) = Some (Date end')
    /\ Body.pickupLocation (body r) = Some pickup
    /\ Body.dropoffLocation (body r) = Some dropoff
    /\ truthy (Body.booking_status (body r)) = Some st
    /\ cars s !! carId = Some car
    /\ Booking_findByIdAndUpdate s (params_id r)
         (updateData userId carId start end' pickup dropoff st
            (update_finalCost r car start end')) = inr (s', res).
Proof.
  unfold updateBooking_run. intros Hrun.
  apply bind_inr in Hrun as [old [Hold Hrun]]. apply found_inr in Hold.
  destruct (Body.user (body r)) as [userId |]; [| discriminate].
  destruct (Body.car (body r)) as [carId |]; [| discriminate].
  destruct (Body.startDate (body r)) as [startDate |]; [| discriminate].
  destruct (Body.endDate (body r)) as [endDate |]; [| discriminate].
  destruct (Body.pickupLocation (body r)) as [pickup |]; [| discriminate].
  destruct (Body.dropoffLocation (body r)) as [dropoff |]; [| discriminate].
  destruct (truthy (Body.booking_status (body r))) as [st |]; [| discriminate].
  apply bind_inr in Hrun as [? [_ Hrun]].
  apply bind_inr in Hrun as [car [Hcar Hrun]]. apply found_inr in Hcar.
  apply bind_inr in Hrun as [? [_ Hrun]].
  apply bind_inr in Hrun as [? [_ Hrun]].
  destruct startDate as [| start]; [discriminate |].
  destruct endDate as [| end']; [discriminate |].
  apply bind_inr in Hrun as [? [_ Hrun]].
  apply bind_inr in Hrun as [? [_ Hrun]].
  exists old, userId, carId, start, end', pickup, dropoff, st, car.
  repeat split; try assumption; reflexivity.
Qed.

Lemma has_id_set_paths (i : oid) (upd old : doc) :
  upd !! "_id" = None -> has_id i old = true -> has_id i (set_paths BookingSchema upd old) = true.
Proof.
  intros Hupd Hid. unfold has_id, field in *.
  rewrite set_paths_untouched by exact Hupd. exact Hid.
Qed.

Lemma BookingSchema_keys :
  map fst BookingSchema
  = ["user"; "car"; "start_date"; "end_date"; "total_cost"; "booking_status";
     "pickup_location"; "dropoff_location"; "createdAt"].
Proof. reflexivity. Qed.

(** X6. An update that succeeds stores the user, car, locations and status
    of the request and the cost that goes with the request's dates, and
    leaves the booking's [start_date], [end_date], [createdAt] and [_id] as
    they were: the dates of the request are not stored.  The answer is the
    document the collection then holds under the id. *)
Theorem updateBooking_keeps_dates (s s' : db) (r : request) (d : doc) :
  updateBooking s r = (s', Json 200 (Some d)) ->
  exists old userId carId pickup dropoff st car start end',
    findById (params_id r) (bookings s) = Some old
    /\ findById (params_id r) (bookings s') = Some d
    /\ d !! "start_date" = old !! "start_date"
    /\ d !! "end_date" = old !! "end_date"
    /\ d !! "createdAt" = old !! "createdAt"
    /\ d !! "_id" = old !! "_id"
    /\ Body.user (body r) = Some userId /\ d !! "user" = Some (VId userId)
    /\ Body.car (body r) = Some carId /\ d !! "car" = Some (VId carId)
    /\ Body.pickupLocation (body r) = Some pickup
    /\ d !! "pickup_location" = Some (VId pickup)
    /\ Body.dropoffLocation (body r) = Some dropoff
    /\ d !! "dropoff_location" = Some (VId dropoff)
    /\ truthy (Body.booking_status (body r)) = Some st
    /\ d !! "booking_status" = Some (VStr st)
    /\ cars s !! carId = Some car
    /\ Body.startDate (body r) = Some (Date start)
    /\ Body.endDate (body r) = Some (Date end')
    /\ d !! "total_cost" = Some (VNum (update_finalCost r car start end')).
Proof.
  unfold updateBooking. intros Hu.
  destruct (updateBooking_run s r) as [e | [s1 res]] eqn:Hrun; [discriminate |].
  injection Hu as -> ->.
  apply updateBooking_run_fields in Hrun
    as (old & userId & carId & start & end' & pickup & dropoff & st & car &
        Hold & Hbu & Hbc & Hbs & Hbe & Hbp & Hbd & Hbst & Hcar & Hupd).
  apply (Booking_findByIdAndUpdate_inr _ _ _ _ _ _ Hold) in Hupd as (Hres & Hcoll & _).
  apply (inj Some) in Hres.
  pose proof (updateData_undeclared userId carId start end' pickup dropoff st
                (update_finalCost r car start end')) as (Hs & He & Hc & Hi).
  pose proof (updateData_fields userId carId start end' pickup dropoff st
                (update_finalCost r car start end')) as (Hfu & Hfc & Hfp & Hfd & Hfst).
  cbv zeta in Hs, He, Hc, Hi, Hfu, Hfc, Hfp, Hfd, Hfst.
  assert (forall k v, k ∈ map fst BookingSchema ->
            updateData userId carId start end' pickup dropoff st
              (update_finalCost r car start end') !! k = Some v ->
            d !! k = Some v) as Hset.
  { intros k v Hk Hv. rewrite Hres. apply set_paths_declared; assumption. }
  assert (forall k,
            k ∈ ["user"; "car"; "start_date"; "end_date"; "total_cost"; "booking_status";
                 "pickup_location"; "dropoff_location"; "createdAt"] ->
            k ∈ map fst BookingSchema) as Hkeys
    by (intros k Hk; rewrite BookingSchema_keys; exact Hk).
  exists old, userId, carId, pickup, dropoff, st, car, start, end'.
  repeat split; try assumption.
  - rewrite Hcoll, Hres. apply findById_update_first with (d := old); [exact Hold |].
    apply has_id_set_paths; [exact Hi |].
    apply findById_elem in Hold as [_ Hid]. exact Hid.
  - rewrite Hres. apply set_paths_untouched, Hs.
  - rewrite Hres. apply set_paths_untouched, He.
  - rewrite Hres. apply set_paths_untouched, Hc.
  - rewrite Hres. apply set_paths_untouched, Hi.
  - apply Hset; [apply Hkeys; rewrite !elem_of_cons; auto 10 | exact Hfu].
  - apply Hset; [apply Hkeys; rewrite !elem_of_cons; auto 10 | exact Hfc].
  - apply Hset; [apply Hkeys; rewrite !elem_of_cons; auto 10 | exact Hfp].
  - apply Hset; [apply Hkeys; rewrite !elem_of_cons; auto 10 | exact Hfd].
  - apply Hset; [apply Hkeys; rewrite !elem_of_cons; auto 10 | exact Hfst].
  - apply Hset; [apply Hkeys; rewrite !elem_of_cons; auto 10 | apply updateData_total_cost].
Qed.

Lemma updateBooking_keeps_dates_witness :
  let s := run db0 [ Create (booking_request (customer 2%N) 0%N None 10%N
                               (utc 2024 3 10) (utc 2024 3 15) CostUndefined None) ] in
  let r := booking_request admin 100%N (Some 3%N) 10%N
             (utc 2024 3 20) (utc 2024 3 22) CostUndefined (Some "confirmed") in
  let d := data (updateBooking s r).2 in
  updateBooking s r = ((updateBooking s r).1, Json 200 (Some d))
  /\ d !! "start_date" = Some (VDate (utc 2024 3 10))
  /\ d !! "end_date" = Some (VDate (utc 2024 3 15))
  /\ d !! "user" = Some (VId 3%N)
  /\ d !! "total_cost" = Some (VNum (Fin 100%Q)).
Proof.
  intros s r d.
  assert (updateBooking s r = ((updateBooking s r).1, Json 200 (Some d))) as H
    by (apply (answered_eq 200); vm_compute; reflexivity).
  split; [exact H |].
  destruct (updateBooking_keeps_dates _ _ _ _ H)
    as (old & userId & carId & pickup & dropoff & st & car & start & end' &
        Hold & _ & Hs & He & _ & _ & Hbu & Hu & _).
  assert (findById (params_id r) (bookings s)
          = Some (default ∅ (findById (params_id r) (bookings s)))) as Hold'
    by (apply found_eq; vm_compute; reflexivity).
  rewrite Hold' in Hold. injection Hold as <-.
  rewrite Hs, He. vm_compute in Hbu. injection Hbu as <-.
  repeat split; try exact Hu; vm_compute; reflexivity.
Defined.

(** ** Writes and the other bookings *)

Lemma has_id_inj (i j : oid) (d : doc) : has_id i d = true -> has_id j d = true -> i = j.
Proof.
  unfold has_id. destruct (field d "_id"); cbn; try discriminate.
  intros ->%N.eqb_eq ->%N.eqb_eq. reflexivity.
Qed.

Lemma has_id_other (i j : oid) (d : doc) : has_id i d = true -> i <> j -> has_id j d = false.
Proof.
  intros Hi Hne. destruct (has_id j d) eqn:Hj; [| reflexivity].
  exfalso. apply Hne. exact (has_id_inj _ _ _ Hi Hj).
Qed.

Lemma findById_update_first_ne (i j : oid) (d' : doc) (coll : list doc) :
  has_id i d' = true -> i <> j ->
  findById j (update_first i d' coll) = findById j coll.
Proof.
  intros Hd' Hne. unfold findById.
  induction coll as [| d0 coll IH]; cbn [update_first List.find]; [reflexivity |].
  destruct (has_id i d0) eqn:H0; cbn [List.find].
  - rewrite (has_id_other _ _ _ Hd' Hne), (has_id_other _ _ _ H0 Hne). reflexivity.
  - destruct (has_id j d0); [reflexivity | exact IH].
Qed.

Lemma findById_delete_first_ne (i j : oid) (coll : list doc) :
  i <> j -> findById j (delete_first i coll) = findById j coll.
Proof.
  intros Hne. unfold findById.
  induction coll as [| d0 coll IH]; cbn [delete_first List.find]; [reflexivity |].
  destruct (has_id i d0) eqn:H0; cbn [List.find].
  - rewrite (has_id_other _ _ _ H0 Hne). reflexivity.
  - destruct (has_id j d0); [reflexivity | exact IH].
Qed.

Lemma has_id_confirmed (i : oid) (d : doc) :
  has_id i d = true -> has_id i (<["booking_status" := VStr "confirmed"]> d) = true.
Proof.
  unfold has_id, field. rewrite lookup_insert_ne by discriminate. auto.
Qed.

(** X7. A call changes no booking but the one it is about: under every id
    other than the one a create assigns, or the one an update, a confirmation
    or a delete names, the collection holds afterwards what it held
    before. *)
Theorem step_other_bookings (s : db) (c : call) (j : oid) :
  j <> target s c ->
  findById j (bookings (step s c)) = findById j (bookings s).
Proof.
  intros Hne. destruct c as [r | r | r | r]; cbn [step target] in *.
  - destruct (createBooking_shape s r)
      as [-> | (userId & carId & start & end' & pickup & dropoff & car & d &
                Hd & _ & _ & _ & ->)]; [reflexivity |].
    rewrite findById_app. destruct (findById j (bookings s)); [reflexivity |].
    unfold findById. cbn [List.find].
    assert (has_id (next_oid s) d = true) as Hid.
    { unfold has_id, field. rewrite Hd, lookup_insert_eq. cbn. apply N.eqb_refl. }
    rewrite (has_id_other _ _ _ Hid); [reflexivity | congruence].
  - destruct (updateBooking_shape s r)
      as [-> | (old & userId & carId & start & end' & pickup & dropoff & st & c &
                Hold & _ & ->)]; [reflexivity |].
    apply findById_update_first_ne; [| congruence].
    apply has_id_set_paths; [apply updateData_undeclared |].
    apply findById_elem in Hold as [_ Hid]. exact Hid.
  - destruct (confirmBookingPayment_shape s r)
      as [-> | (booking & owner & Hf & _ & _ & _ & ->)]; [reflexivity |].
    apply findById_update_first_ne; [| congruence].
    apply has_id_confirmed. apply findById_elem in Hf as [_ Hid]. exact Hid.
  - destruct (deleteBooking_shape s r) as [[_ ->] | [_ ->]]; [reflexivity |].
    apply findById_delete_first_ne. congruence.
Qed.

Lemma step_other_bookings_witness :
  let s := run db0 [ Create (booking_request (customer 2%N) 0%N None 10%N
                               (utc 2024 3 10) (utc 2024 3 15) CostUndefined None);
                     Create (booking_request (customer 3%N) 0%N None 10%N
                               (utc 2024 4 10) (utc 2024 4 15) CostUndefined None) ] in
  let c := Delete (booking_request admin 100%N None 10%N 0 0 CostUndefined None) in
  bool_decide (is_Some (findById 101%N (bookings s))) = true
  /\ findById 100%N (bookings (step s c)) = None
  /\ findById 101%N (bookings (step s c)) = findById 101%N (bookings s).
Proof.
  intros s c. split; [vm_compute; reflexivity |]. split; [vm_compute; reflexivity |].
  apply (step_other_bookings s c 101%N). discriminate.
Defined.

(** ** Deleting *)

Lemma not_found_update (s : db) (r : request) :
  findById (params_id r) (bookings s) = None ->
  updateBooking s r
  = (s, Next (ErrorResponse ("Booking not found with id of " +:+ oid_str (params_id r)) 404)).
Proof.
  intros Hf. unfold updateBooking, updateBooking_run. rewrite Hf. reflexivity.
Qed.

Lemma not_found_confirm (s : db) (r : request) :
  findById (params_id r) (bookings s) = None ->
  confirmBookingPayment s r
  = (s, Next (ErrorResponse ("Booking not found with id of " +:+ oid_str (params_id r)) 404)).
Proof.
  intros Hf. unfold confirmBookingPayment, confirmBookingPayment_run. rewrite Hf. reflexivity.
Qed.

Lemma not_found_delete (s : db) (r : request) :
  findById (params_id r) (bookings s) = None ->
  deleteBooking s r
  = (s, Next (ErrorResponse ("Booking not found with id of " +:+ oid_str (params_id r)) 404)).
Proof.
  intros Hf. unfold deleteBooking. rewrite Hf. reflexivity.
Qed.

Lemma not_found_get (s : db) (r : request) :
  findById (params_id r) (bookings s) = None ->
  getBooking s r
  = (s, Next (ErrorResponse ("Booking not found with id of " +:+ oid_str (params_id r)) 404)).
Proof.
  intros Hf. unfold getBooking. rewrite Hf. reflexivity.
Qed.

Lemma delete_first_gone (i : oid) (coll : list doc) :
  unique_ids coll -> findById i (delete_first i coll) = None.
Proof.
  unfold unique_ids, findById. induction coll as [| d0 coll IH]; cbn [map]; [reflexivity |].
  intros Hnd. apply NoDup_cons in Hnd as [Hnotin Hnd]. cbn [delete_first].
  destruct (has_id i d0) eqn:H0; cbn [List.find].
  - destruct (List.find (has_id i) coll) as [d1 |] eqn:Hf; [| reflexivity].
    exfalso. apply Hnotin. apply find_some in Hf as [Hin H1].
    apply list_elem_of_fmap. exists d1. split; [| apply list_elem_of_In; exact Hin].
    unfold has_id in *.
    destruct (field d0 "_id"), (field d1 "_id"); cbn in *; try discriminate.
    apply N.eqb_eq in H0, H1. congruence.
  - rewrite H0. apply IH, Hnd.
Qed.

Lemma delete_first_length (i : oid) (coll : list doc) (d : doc) :
  findById i coll = Some d -> S (length (delete_first i coll)) = length coll.
Proof.
  unfold findById. induction coll as [| d0 coll IH]; cbn [List.find delete_first];
    [discriminate |].
  destruct (has_id i d0); cbn [length]; [reflexivity |].
  intros Hf. f_equal. apply IH, Hf.
Qed.

(** X8. Deleting a stored booking answers 200 with no data and removes just
    that document; when ids are unique the id is then unknown: a second
    delete, an update, a confirmation and a read of it are each answered 404
    and change nothing. *)
Theorem deleteBooking_removes (s : db) (r : request) (d : doc) :
  unique_ids (bookings s) ->
  findById (params_id r) (bookings s) = Some d ->
  let s' := (deleteBooking s r).1 in
  let not_found :=
    Next (ErrorResponse ("Booking not found with id of " +:+ oid_str (params_id r)) 404) in
  (deleteBooking s r).2 = Json 200 None
  /\ S (length (bookings s')) = length (bookings s)
  /\ findById (params_id r) (bookings s') = None
  /\ deleteBooking s' r = (s', not_found)
  /\ updateBooking s' r = (s', not_found)
  /\ confirmBookingPayment s' r = (s', not_found)
  /\ getBooking s' r = (s', not_found).
Proof.
  intros Hu Hf s' not_found.
  assert (bookings s' = delete_first (params_id r) (bookings s)) as Hcoll.
  { subst s'. unfold deleteBooking. rewrite Hf. reflexivity. }
  assert (findById (params_id r) (bookings s') = None) as Hgone
    by (rewrite Hcoll; apply delete_first_gone, Hu).
  split; [unfold deleteBooking; rewrite Hf; reflexivity |].
  split; [rewrite Hcoll; apply (delete_first_length _ _ d Hf) |].
  split; [exact Hgone |].
  split; [apply not_found_delete, Hgone |].
  split; [apply not_found_update, Hgone |].
  split; [apply not_found_confirm, Hgone | apply not_found_get, Hgone].
Qed.

Lemma deleteBooking_removes_witness :
  let s := run db0 [ Create (booking_request (customer 2%N) 0%N None 10%N
                               (utc 2024 3 10) (utc 2024 3 15) CostUndefined None) ] in
  let r := booking_request admin 100%N None 10%N 0 0 CostUndefined None in
  (deleteBooking s r).2 = Json 200 None
  /\ bookings (deleteBooking s r).1 = [].
Proof.
  intros s r.
  assert (unique_ids (bookings s)) as Hu.
  { unfold unique_ids.
    assert (map (fun d : doc => field d "_id") (bookings s) = [VId 100%N]) as ->
      by (vm_compute; reflexivity).
    apply NoDup_singleton. }
  assert (findById (params_id r) (bookings s)
          = Some (default ∅ (findById (params_id r) (bookings s)))) as Hf
    by (apply found_eq; vm_compute; reflexivity).
  destruct (deleteBooking_removes s r _ Hu Hf) as (Hok & _).
  split; [exact Hok | vm_compute; reflexivity].
Defined.

(** ** Who may read and confirm *)

(** X9. For a stored booking whose owner exists: [getBooking] answers with
    the booking exactly when the caller is the owner or an administrator, and
    with 401 otherwise; [confirmBookingPayment] is refused with 401, the
    database as before, exactly when the caller is neither. *)
Theorem booking_access (s : db) (r : request) (booking : doc) (owner : oid) :
  findById (params_id r) (bookings s) = Some booking ->
  booking !! "user" = Some (VId owner) ->
  owner ∈ users s ->
  let allowed := owner = User.id (user r) \/ isAdmin r = true in
  (getBooking s r = (s, Read "getBooking") <-> allowed)
  /\ (getBooking s r = (s, Next (ErrorResponse "Not authorized to view this booking" 401))
      <-> ~ allowed)
  /\ (confirmBookingPayment s r
      = (s, Next (ErrorResponse "Not authorized to update this booking" 401))
      <-> ~ allowed).
Proof.
  intros Hf Hu Hin allowed. subst allowed.
  assert (negb (N.eqb owner (User.id (user r))) && negb (isAdmin r) = false
          <-> owner = User.id (user r) \/ isAdmin r = true) as Hb.
  { rewrite andb_false_iff, !negb_false_iff, N.eqb_eq. reflexivity. }
  unfold getBooking, confirmBookingPayment, confirmBookingPayment_run.
  rewrite Hf. cbn [found mbind M_bind mret M_ret]. rewrite Hu.
  rewrite (bool_decide_eq_true_2 _ Hin).
  destruct (negb (N.eqb owner (User.id (user r))) && negb (isAdmin r)) eqn:Hdenied;
    cbn [negb]; run_guards.
  - assert (~ (owner = User.id (user r) \/ isAdmin r = true)) as Hno
      by (intros H; apply Hb in H; discriminate H).
    split; [split; [discriminate | contradiction] |].
    split; (split; [intros _; exact Hno | reflexivity]).
  - assert (owner = User.id (user r) \/ isAdmin r = true) as Hyes by (apply Hb; reflexivity).
    split; [split; [intros _; exact Hyes | reflexivity] |].
    split; [split; [discriminate | contradiction] |].
    split; [| contradiction].
    destruct (value_eqb (field booking "booking_status") (VStr "pending_payment"));
      run_guards.
    + unfold Booking_save. destruct (invalid_on_save _ _ _); run_guards; discriminate.
    + unfold invalid_state. intros [=].
Qed.

Lemma booking_access_witness :
  let s := run db0 [ Create (booking_request (customer 2%N) 0%N None 10%N
                               (utc 2024 3 10) (utc 2024 3 15) CostUndefined None) ] in
  let r := booking_request (customer 3%N) 100%N None 10%N 0 0 CostUndefined None in
  getBooking s r = (s, Next (ErrorResponse "Not authorized to view this booking" 401))
  /\ confirmBookingPayment s r
     = (s, Next (ErrorResponse "Not authorized to update this booking" 401)).
Proof.
  intros s r.
  assert (findById (params_id r) (bookings s)
          = Some (default ∅ (findById (params_id r) (bookings s)))) as Hf
    by (apply found_eq; vm_compute; reflexivity).
  assert (default ∅ (findById (params_id r) (bookings s)) !! "user" = Some (VId 2%N)) as Hu
    by (vm_compute; reflexivity).
  assert (2%N ∈ users s) as Hin
    by (apply (bool_decide_eq_true_1 (2%N ∈ users s)); vm_compute; reflexivity).
  destruct (booking_access s r _ 2%N Hf Hu Hin) as (_ & Hget & Hconfirm).
  assert (~ (2%N = User.id (user r) \/ isAdmin r = true)) as Hno
    by (intros [H | H]; discriminate H).
  split; [apply Hget, Hno | apply Hconfirm, Hno].
Defined.

(** X10. A confirmation that succeeded cannot be repeated: the same request
    is then refused with the 400 error that quotes the status [confirmed],
    and the database stays as the first confirmation left it. *)
Theorem confirm_twice (s s' : db) (r : request) (d : doc) :
  confirmBookingPayment s r = (s', Json 200 (Some d)) ->
  confirmBookingPayment s' r
  = (s', Next (ErrorResponse "Booking status is already 'confirmed', cannot confirm payment."
                 400)).
Proof.
  intros Hfirst.
  destruct (confirmBookingPayment_shape s r)
    as [Hsame | (booking & owner & Hf & Hu & Hauth & Hst & Hcoll)].
  - exfalso. rewrite Hfirst in Hsame. cbn [fst] in Hsame. subst s'.
    unfold confirmBookingPayment in Hfirst.
    destruct (confirmBookingPayment_run s r) as [e | [s1 d1]] eqn:Hrun; [discriminate |].
    injection Hfirst as -> ->.
    unfold confirmBookingPayment_run in Hrun.
    apply bind_inr in Hrun as [booking [Hf Hrun]]. apply found_inr in Hf.
    destruct (booking !! "user") as [[| owner | | |] |] eqn:Hu; try discriminate.
    apply bind_inr in Hrun as [? [_ Hrun]].
    apply bind_inr in Hrun as [? [Hst Hrun]]. apply require_inr, status_is in Hst.
    apply bind_inr in Hrun as [s'' [Hsave Hrun]].
    injection Hrun as -> _.
    unfold Booking_save in Hsave.
    destruct (invalid_on_save _ _ _); [| discriminate].
    injection Hsave as Hs.
    apply (f_equal (fun x => findById (params_id r) (bookings x))) in Hs.
    cbn [bookings with_bookings] in Hs.
    rewrite (findById_update_first _ booking) in Hs;
      [| exact Hf | apply has_id_confirmed; apply findById_elem in Hf as [_ H]; exact H].
    rewrite Hf in Hs. apply (inj Some) in Hs.
    apply (f_equal (fun x : doc => x !! "booking_status")) in Hs.
    rewrite lookup_insert_eq, Hst in Hs. discriminate Hs.
  - rewrite Hfirst in Hcoll. cbn [fst] in Hcoll.
    assert (findById (params_id r) (bookings s')
            = Some (<["booking_status" := VStr "confirmed"]> booking)) as Hf'.
    { rewrite Hcoll. apply findById_update_first with (d := booking); [exact Hf |].
      apply has_id_confirmed. apply findById_elem in Hf as [_ H]. exact H. }
    unfold confirmBookingPayment, confirmBookingPayment_run.
    rewrite Hf'. cbn [found mbind M_bind mret M_ret].
    rewrite lookup_insert_ne by discriminate. rewrite Hu.
    assert (negb (negb (N.eqb owner (User.id (user r))) && negb (isAdmin r)) = true) as ->.
    { destruct Hauth as [-> | ->]; [rewrite N.eqb_refl; reflexivity |].
      rewrite andb_false_r. reflexivity. }
    run_guards.
    assert (value_eqb (field (<["booking_status" := VStr "confirmed"]> booking)
                         "booking_status") (VStr "pending_payment") = false) as ->.
    { unfold field. rewrite lookup_insert_eq. reflexivity. }
    run_guards. unfold invalid_state, status_text. rewrite lookup_insert_eq. reflexivity.
Qed.

Lemma confirm_twice_witness :
  let s := run db0 [ Create (booking_request (customer 2%N) 0%N None 10%N
                               (utc 2024 3 10) (utc 2024 3 15) CostUndefined None) ] in
  let r := booking_request (customer 2%N) 100%N None 10%N 0 0 CostUndefined None in
  let s' := (confirmBookingPayment s r).1 in
  answered 200 (confirmBookingPayment s r) = true
  /\ confirmBookingPayment s' r
     = (s', Next (ErrorResponse "Booking status is already 'confirmed', cannot confirm payment."
                    400)).
Proof.
  intros s r s'.
  assert (answered 200 (confirmBookingPayment s r) = true) as Ha by (vm_compute; reflexivity).
  split; [exact Ha |].
  apply (confirm_twice s s' r (data (confirmBookingPayment s r).2)).
  apply (answered_eq 200), Ha.
Defined.

(** ** What a customer can do through the router *)

Lemma routes_admin_only (m : method) (path : list string) (roles : option (list string))
    (h : handler) :
  routes m path = Some (roles, h) ->
  match h with
  | H_updateBooking | H_deleteBooking => roles = Some ["admin"]
  | _ => roles = None
  end
  /\ match m with
     | PUT => h = H_updateBooking
     | DELETE => h = H_deleteBooking
     | _ => h <> H_updateBooking /\ h <> H_deleteBooking
     end.
Proof.
  unfold routes. intros H.
  repeat match type of H with
         | match ?x with _ => _ end = _ => destruct x; try discriminate H
         end;
    injection H as <- <-; split; try reflexivity; split; discriminate.
Qed.

Lemma Booking_findByIdAndUpdate_catalogue (s s' : db) (i : oid) (upd : doc)
    (res : option doc) :
  Booking_findByIdAndUpdate s i upd = inr (s', res) ->
  users s' = users s /\ cars s' = cars s /\ locations s' = locations s.
Proof.
  unfold Booking_findByIdAndUpdate.
  destruct (uncastable_paths _ _); [| discriminate].
  destruct (invalid_updates _ _); [| discriminate].
  destruct (findById i (bookings s)) as [d |]; cbv beta iota zeta; unfold mret, M_ret; intros H.
  - assert (with_bookings s (update_first i (set_paths BookingSchema upd d) (bookings s))
              (next_oid s) = s') as <- by congruence.
    auto.
  - assert (s = s') as <- by congruence. auto.
Qed.

Lemma step_keeps_catalogue (s : db) (c : call) :
  users (step s c) = users s /\ cars (step s c) = cars s
  /\ locations (step s c) = locations s.
Proof.
  destruct c as [r | r | r | r]; cbn [step].
  - unfold createBooking.
    destruct (createBooking_run s r) as [e | [s' d]] eqn:Hrun; [auto |]. cbn [fst].
    apply createBooking_run_inr in Hrun
      as (userId & carId & start & end' & pickup & dropoff & car & _ & _ & _ & _ &
          _ & _ & _ & _ & _ & _ & _ & _ & _ & Hcreate).
    apply Booking_create_inr in Hcreate as (_ & _ & _ & Hu & Hc & Hl). auto.
  - unfold updateBooking.
    destruct (updateBooking_run s r) as [e | [s' res]] eqn:Hrun; [auto |]. cbn [fst].
    apply updateBooking_run_inr in Hrun
      as (old & userId & carId & start & end' & pickup & dropoff & st & car &
          Hold & _ & _ & _ & _ & _ & _ & Hupd).
    apply Booking_findByIdAndUpdate_catalogue in Hupd. exact Hupd.
  - unfold confirmBookingPayment.
    destruct (confirmBookingPayment_run s r) as [e | [s' d]] eqn:Hrun; [auto |]. cbn [fst].
    unfold confirmBookingPayment_run in Hrun.
    apply bind_inr in Hrun as [booking [_ Hrun]].
    destruct (booking !! "user") as [[| owner | | |] |]; try discriminate.
    apply bind_inr in Hrun as [? [_ Hrun]].
    apply bind_inr in Hrun as [? [_ Hrun]].
    apply bind_inr in Hrun as [s'' [Hsave Hrun]].
    injection Hrun as <- _. unfold Booking_save in Hsave.
    destruct (invalid_on_save _ _ _); [| discriminate].
    injection Hsave as <-. auto.
  - unfold deleteBooking. destruct (findById _ _); auto.
Qed.

Lemma others_update_first (u i : oid) (d d' : doc) (coll : list doc) :
  findById i coll = Some d ->
  value_eqb (field d "user") (VId u) = true ->
  value_eqb (field d' "user") (VId u) = true ->
  others u (update_first i d' coll) = others u coll.
Proof.
  unfold findById, others. intros Hf Hd Hd'.
  induction coll as [| d0 coll IH]; [discriminate |].
  cbn [List.find update_first] in *.
  destruct (has_id i d0) eqn:H0.
  - injection Hf as ->. cbn [List.filter]. rewrite Hd, Hd'. reflexivity.
  - cbn [List.filter]. rewrite (IH Hf). reflexivity.
Qed.

(** X11. A caller who is not an administrator cannot, by any request to the
    bookings router, change or remove a booking of another user, remove any
    booking, or change the users, cars and locations; requests with [PUT] or
    [DELETE] change nothing at all. *)
Theorem customer_requests_are_contained (s : db) (m : method) (path : list string)
    (r : request) :
  isAdmin r = false ->
  let s' := (router s m path r).1 in
  others (User.id (user r)) (bookings s') = others (User.id (user r)) (bookings s)
  /\ (length (bookings s) <= length (bookings s'))%nat
  /\ users s' = users s /\ cars s' = cars s /\ locations s' = locations s
  /\ (m = PUT \/ m = DELETE -> s' = s).
Proof.
  intros Hrole s'. subst s'. unfold router.
  destruct (routes m path) as [[roles h] |] eqn:Hroute; [| cbn [fst]; auto 10].
  apply routes_admin_only in Hroute as [Hroles Hm].
  assert (forall roles', roles' = ["admin"] -> authorize roles' r
            = inl (ErrorResponse ("User role '" +:+ User.role (user r)
                                  +:+ "' is not authorized to access this route") 403))
    as Hdenied.
  { intros ? ->. unfold authorize, isAdmin in *. cbn [existsb]. rewrite Hrole. reflexivity. }
  destruct h; subst roles; try (rewrite (Hdenied _ eq_refl)); cbn [fst run_handler];
    try (repeat split; auto; intros [-> | ->]; destruct Hm as [? ?]; congruence);
    try (repeat split; auto; fail).
  - (* createBooking *)
    pose proof (step_keeps_catalogue s (Create r)) as (Hu & Hc & Hl). cbn [step] in *.
    assert (m <> PUT /\ m <> DELETE) as [Hput Hdel]
      by (destruct m; try discriminate Hm; split; discriminate).
    destruct (createBooking_shape s r)
      as [-> | (userId & carId & start & end' & pickup & dropoff & car & d &
                Hd & Huser & _ & _ & Hcoll)].
    { repeat split; auto. }
    rewrite Hcoll. rewrite Hrole in Huser. injection Huser as <-.
    split; [| split; [rewrite length_app; lia | repeat split; auto; intros [? | ?]; contradiction]].
    unfold others. rewrite List.filter_app. cbn [List.filter].
    pose proof (new_booking_fields (next_oid s) (now r) (User.id (user r)) carId start end'
                  (create_totalCost r car start end') pickup dropoff (create_status r))
      as (_ & Hfu & _).
    cbv zeta in Hfu. rewrite <- Hd in Hfu.
    unfold field. rewrite Hfu. cbn [default from_option id value_eqb].
    rewrite N.eqb_refl. cbn [negb]. apply app_nil_r.
  - (* confirmBookingPayment *)
    pose proof (step_keeps_catalogue s (Confirm r)) as (Hu & Hc & Hl). cbn [step] in *.
    assert (m <> PUT /\ m <> DELETE) as [Hput Hdel]
      by (destruct m; try discriminate Hm; split; discriminate).
    destruct (confirmBookingPayment_shape s r)
      as [-> | (booking & owner & Hf & Hown & Hauth & _ & Hcoll)].
    { repeat split; auto. }
    rewrite Hcoll. destruct Hauth as [-> | Hadm]; [| congruence].
    split; [| split; [rewrite update_first_length; lia
                     | repeat split; auto; intros [? | ?]; contradiction]].
    apply others_update_first with (d := booking); [exact Hf | |];
      unfold field; rewrite ?lookup_insert_ne by discriminate; rewrite Hown;
      cbn [default from_option id value_eqb]; apply N.eqb_refl.
Qed.

Lemma customer_requests_are_contained_witness :
  let s := run db0 [ Create (booking_request (customer 2%N) 0%N None 10%N
                               (utc 2024 3 10) (utc 2024 3 15) CostUndefined None) ] in
  let r := booking_request (customer 3%N) 100%N None 10%N
             (utc 2024 3 10) (utc 2024 3 15) CostUndefined None in
  (router s DELETE ["100"] r).1 = s
  /\ others 3%N (bookings (router s POST ["100"; "confirm-payment"] r).1)
     = others 3%N (bookings s).
Proof.
  intros s r. split.
  - apply (customer_requests_are_contained s DELETE ["100"] r eq_refl). right. reflexivity.
  - apply (customer_requests_are_contained s POST ["100"; "confirm-payment"] r eq_refl).
Defined.

(** ** The admin router *)

(** X12. None of the requests the admin console sends about bookings has a
    route below [/admin]: an administrator gets no handler for any of them,
    and any other caller is stopped by [authorize] with 403. *)
Theorem admin_console_bookings_unrouted (bookingId : string) (r : request) :
  (isAdmin r = true ->
   Forall (fun mp => adminRouter mp.1 mp.2 r = NoRoute) (admin_console_requests bookingId))
  /\ (isAdmin r = false ->
      forall m path,
        adminRouter m path r
        = Next (ErrorResponse ("User role '" +:+ User.role (user r)
                               +:+ "' is not authorized to access this route") 403)).
Proof.
  unfold adminRouter, authorize, isAdmin. cbn [existsb]. split; intros ->; cbn [orb require].
  - unfold admin_console_requests. repeat constructor.
  - reflexivity.
Qed.

Lemma admin_console_bookings_unrouted_witness :
  adminRouter PUT ["bookings"; "100"]
    (booking_request admin 100%N (Some 2%N) 10%N 0 1 CostUndefined (Some "confirmed"))
  = NoRoute.
Proof.
  destruct (admin_console_bookings_unrouted "100"
              (booking_request admin 100%N (Some 2%N) 10%N 0 1 CostUndefined (Some "confirmed")))
    as [Hadmin _].
  specialize (Hadmin eq_refl).
  unfold admin_console_requests in Hadmin.
  do 3 apply Forall_cons in Hadmin as [_ Hadmin].
  apply Forall_cons in Hadmin as [H _]. exact H.
Defined.

(** ** Listing bookings *)

(** X13. What [getBookings] counts and lists from: for a caller who is not
    an administrator exactly the caller's own bookings, for an administrator
    all of them, in both cases cut down to the status the request asks for,
    if it asks for one. *)
Theorem getBookings_visibility (s : db) (u : User.t) (q : Query.t) (d : doc) :
  In d (find (getBookings_conditions u q) (bookings s))
  <-> In d (bookings s)
      /\ (String.eqb (User.role u) "admin" = true
          \/ value_eqb (field d "user") (VId (User.id u)) = true)
      /\ (forall st, truthy (Query.booking_status q) = Some st ->
            value_eqb (field d "booking_status") (VStr st) = true).
Proof.
  unfold find, getBookings_conditions. rewrite filter_In.
  destruct (String.eqb (User.role u) "admin") eqn:Hrole;
    destruct (truthy (Query.booking_status q)) as [st |] eqn:Hst;
    cbn [app matches forallb eval_op]; rewrite ?andb_true_r.
  - split.
    + intros [Hin Hm]. repeat split; auto. intros st' [= <-]. exact Hm.
    + intros (Hin & _ & Hs). split; auto.
  - split.
    + intros [Hin _]. repeat split; auto. discriminate.
    + intros (Hin & _). auto.
  - rewrite andb_true_iff. split.
    + intros [Hin [Hu Hm]]. repeat split; auto. intros st' [= <-]. exact Hm.
    + intros (Hin & [Hno | Hu] & Hs); [discriminate |]. auto.
  - split.
    + intros [Hin Hu]. repeat split; auto. discriminate.
    + intros (Hin & [Hno | Hu] & _); [discriminate |]. auto.
Qed.

(** X14. The links of a page with [page >= 1] and [limit >= 1], for the
    bookings the caller may list: [next] is offered exactly when bookings
    remain beyond the page, and the page it names then starts below the total
    and links back to this page; [prev] is offered exactly when the page is
    not the first. *)
Theorem getBookings_pagination_links (s : db) (u : User.t) (q : Query.t) :
  let page := or_default (Query.page q) 1 in
  let limit := or_default (Query.limit q) 100 in
  let total := getBookings_total s u q in
  let links := getBookings_pagination q total in
  1 <= page -> 1 <= limit ->
  (Pagination.next links = None <-> total <= page * limit)
  /\ (Pagination.prev links = None <-> page = 1)
  /\ (forall np nl,
        Pagination.next links = Some (np, nl) ->
        np = page + 1 /\ nl = limit /\ (np - 1) * nl < total
        /\ Pagination.prev
             (getBookings_pagination
                {| Query.booking_status := Query.booking_status q;
                   Query.page := Some np; Query.limit := Some nl |} total)
           = Some (page, limit)).
Proof.
  intros page limit total links Hpage Hlimit. subst links. generalize total. clear total.
  intros total.
  unfold getBookings_pagination. fold page limit. cbn [Pagination.next Pagination.prev].
  split; [| split].
  - destruct (page * limit <? total) eqn:H.
    + apply Z.ltb_lt in H. split; [discriminate | lia].
    + apply Z.ltb_ge in H. split; [intros _; exact H | reflexivity].
  - destruct (0 <? (page - 1) * limit) eqn:H.
    + apply Z.ltb_lt in H. split; [discriminate | intros ->; lia].
    + apply Z.ltb_ge in H. split; [intros _; nia | reflexivity].
  - intros np nl. destruct (page * limit <? total) eqn:H; [| discriminate].
    apply Z.ltb_lt in H. intros [= <- <-].
    cbn [Query.page Query.limit].
    assert (or_default (Some (page + 1)) 1 = page + 1) as ->
      by (unfold or_default; destruct (page + 1) eqn:E; try reflexivity; lia).
    assert (or_default (Some limit) 100 = limit) as ->
      by (unfold or_default; destruct limit eqn:E; try reflexivity; lia).
    repeat split; [ring_simplify (page + 1 - 1); exact H |].
    assert ((0 <? (page + 1 - 1) * limit) = true) as -> by (apply Z.ltb_lt; nia).
    f_equal. f_equal. lia.
Qed.

Lemma getBookings_pagination_links_witness :
  let s := run db0 [ Create (booking_request (customer 2%N) 0%N None 10%N
                               (utc 2024 3 10) (utc 2024 3 15) CostUndefined None);
                     Create (booking_request (customer 2%N) 0%N None 10%N
                               (utc 2024 4 10) (utc 2024 4 15) CostUndefined None);
                     Create (booking_request (customer 2%N) 0%N None 10%N
                               (utc 2024 5 10) (utc 2024 5 15) CostUndefined None) ] in
  let q := {| Query.booking_status := None; Query.page := Some 1; Query.limit := Some 2 |} in
  let links := getBookings_pagination q (getBookings_total s (customer 2%N) q) in
  getBookings_total s (customer 2%N) q = 3
  /\ Pagination.next links = Some (2, 2)
  /\ Pagination.prev links = None.
Proof.
  intros s q links.
  destruct (getBookings_pagination_links s (customer 2%N) q ltac:(vm_compute; discriminate)
              ltac:(vm_compute; discriminate)) as (_ & Hprev & _).
  split; [vm_compute; reflexivity |].
  split; [vm_compute; reflexivity | apply Hprev; reflexivity].
Defined.

(** ** The dashboard's figures *)

Lemma find_app_unmatched (q : query) (coll : list doc) (d : doc) :
  matches q d = false -> find q (coll ++ [d]) = find q coll.
Proof.
  intros Hd. unfold find. rewrite List.filter_app. cbn [List.filter].
  rewrite Hd. apply app_nil_r.
Qed.

Lemma find_update_first_unmatched (q : query) (i : oid) (d d' : doc) (coll : list doc) :
  findById i coll = Some d -> matches q d = false -> matches q d' = false ->
  find q (update_first i d' coll) = find q coll.
Proof.
  unfold findById, find. intros Hf Hd Hd'.
  induction coll as [| d0 coll IH]; [discriminate |].
  cbn [List.find update_first] in *.
  destruct (has_id i d0) eqn:H0.
  - injection Hf as ->. cbn [List.filter]. rewrite Hd, Hd'. reflexivity.
  - cbn [List.filter]. rewrite (IH Hf). reflexivity.
Qed.

Lemma find_update_first_length (q : query) (i : oid) (d d' : doc) (coll : list doc) :
  findById i coll = Some d -> matches q d = false ->
  length (find q (update_first i d' coll))
  = (length (find q coll) + (if matches q d' then 1 else 0))%nat.
Proof.
  unfold findById, find. intros Hf Hd.
  induction coll as [| d0 coll IH]; [discriminate |].
  cbn [List.find update_first] in *.
  destruct (has_id i d0) eqn:H0.
  - injection Hf as ->. cbn [List.filter]. rewrite Hd.
    destruct (matches q d'); cbn [length]; lia.
  - cbn [List.filter]. destruct (matches q d0); cbn [length]; rewrite (IH Hf); lia.
Qed.

Lemma status_clause (d : doc) (st st' : string) :
  d !! "booking_status" = Some (VStr st) ->
  eval_op (OEq (VStr st')) (field d "booking_status") = String.eqb st st'.
Proof. intros H. unfold field. rewrite H. reflexivity. Qed.

(** X15. A booking that a caller who is not an administrator creates moves
    none of the dashboard's figures: the revenue, the count of active
    bookings and the count of future ones are as before. *)
Theorem customer_booking_moves_no_figure (s s' : db) (r : request) (d : doc) (midnight : Z) :
  isAdmin r = false ->
  createBooking s r = (s', Json 201 (Some d)) ->
  totalRevenue s' = totalRevenue s
  /\ activeBookingsCount s' = activeBookingsCount s
  /\ futureBookingsCount s' midnight = futureBookingsCount s midnight.
Proof.
  intros Hrole Hc.
  assert (bookings s' = bookings s ++ [d]
          /\ d !! "booking_status" = Some (VStr "pending_payment")) as [Hcoll Hst].
  { unfold createBooking in Hc.
    destruct (createBooking_run s r) as [e | [s1 d1]] eqn:Hrun; [discriminate |].
    injection Hc as -> ->.
    apply createBooking_run_inr in Hrun
      as (userId & carId & start & end' & pickup & dropoff & car & _ & _ & _ & _ &
          _ & _ & _ & _ & _ & _ & _ & _ & _ & Hcreate).
    apply Booking_create_inr in Hcreate as (Hd & _ & Hcoll & _).
    split; [exact Hcoll |].
    pose proof (new_booking_fields (next_oid s) (now r) userId carId start end'
                  (create_totalCost r car start end') pickup dropoff (create_status r))
      as (_ & _ & _ & _ & _ & _ & Hs).
    cbv zeta in Hs. rewrite <- Hd in Hs. rewrite Hs.
    unfold create_status. rewrite Hrole. reflexivity. }
  unfold totalRevenue, activeBookingsCount, futureBookingsCount. rewrite Hcoll.
  rewrite !find_app_unmatched; [auto | |  |];
    cbn [matches forallb eval_op existsb]; unfold field; rewrite Hst; reflexivity.
Qed.

Lemma customer_booking_moves_no_figure_witness :
  let r := booking_request (customer 2%N) 0%N None 10%N
             (utc 2024 3 10) (utc 2024 3 15) CostUndefined None in
  answered 201 (createBooking db0 r) = true
  /\ futureBookingsCount (createBooking db0 r).1 (utc 2024 1 1) = 0%nat.
Proof.
  intros r.
  assert (answered 201 (createBooking db0 r) = true) as Ha by (vm_compute; reflexivity).
  split; [exact Ha |].
  destruct (customer_booking_moves_no_figure db0 _ r _ (utc 2024 1 1) eq_refl
              (answered_eq 201 _ Ha)) as (_ & _ & ->).
  reflexivity.
Defined.

(** X16. Confirming a payment leaves the revenue and the count of active
    bookings as they were and adds the booking to the future ones exactly
    when it starts at or after the midnight the dashboard counts from. *)
Theorem confirmation_and_figures (s s' : db) (r : request) (d : doc) (start midnight : Z) :
  confirmBookingPayment s r = (s', Json 200 (Some d)) ->
  d !! "start_date" = Some (VDate start) ->
  totalRevenue s' = totalRevenue s
  /\ activeBookingsCount s' = activeBookingsCount s
  /\ futureBookingsCount s' midnight
     = (futureBookingsCount s midnight + (if (midnight <=? start)%Z then 1 else 0))%nat.
Proof.
  intros Hc Hstart.
  destruct (confirmBookingPayment_shape s r)
    as [Hsame | (booking & owner & Hf & _ & _ & Hst & Hcoll)].
  - exfalso. unfold confirmBookingPayment in *.
    destruct (confirmBookingPayment_run s r) as [e | [s1 d1]] eqn:Hrun; [discriminate |].
    injection Hc as -> ->. cbn [fst] in Hsame. subst s'.
    unfold confirmBookingPayment_run in Hrun.
    apply bind_inr in Hrun as [booking [Hf Hrun]]. apply found_inr in Hf.
    destruct (booking !! "user") as [[| owner | | |] |] eqn:Hu; try discriminate.
    apply bind_inr in Hrun as [? [_ Hrun]].
    apply bind_inr in Hrun as [? [Hst Hrun]]. apply require_inr, status_is in Hst.
    apply bind_inr in Hrun as [s'' [Hsave Hrun]].
    injection Hrun as -> _.
    unfold Booking_save in Hsave.
    destruct (invalid_on_save _ _ _); [| discriminate].
    injection Hsave as Hs.
    apply (f_equal (fun x => findById (params_id r) (bookings x))) in Hs.
    cbn [bookings with_bookings] in Hs.
    rewrite (findById_update_first _ booking) in Hs;
      [| exact Hf | apply has_id_confirmed; apply findById_elem in Hf as [_ H]; exact H].
    rewrite Hf in Hs. apply (inj Some) in Hs.
    apply (f_equal (fun x : doc => x !! "booking_status")) in Hs.
    rewrite lookup_insert_eq, Hst in Hs. discriminate Hs.
  - assert (d = <["booking_status" := VStr "confirmed"]> booking) as Hd.
    { unfold confirmBookingPayment in Hc.
      destruct (confirmBookingPayment_run s r) as [e | [s1 d1]] eqn:Hrun; [discriminate |].
      injection Hc as -> ->.
      unfold confirmBookingPayment_run in Hrun. rewrite Hf in Hrun.
      cbn [found mbind M_bind mret M_ret] in Hrun.
      destruct (booking !! "user") as [[| o | | |] |]; try discriminate.
      apply bind_inr in Hrun as [? [_ Hrun]].
      apply bind_inr in Hrun as [? [_ Hrun]].
      apply bind_inr in Hrun as [s'' [_ Hrun]].
      unfold mret, M_ret in Hrun. congruence. }
    rewrite Hc in Hcoll. cbn [fst] in Hcoll.
    assert (d !! "booking_status" = Some (VStr "confirmed")) as Hst'
      by (rewrite Hd; apply lookup_insert_eq).
    unfold totalRevenue, activeBookingsCount, futureBookingsCount.
    rewrite Hcoll, <- Hd.
    rewrite !(find_update_first_unmatched _ _ booking d) by
      (try exact Hf; cbn [matches forallb eval_op]; unfold field;
       rewrite ?Hst, ?Hst'; reflexivity).
    split; [reflexivity |]. split; [reflexivity |].
    rewrite (find_update_first_length _ _ booking d) by
      (try exact Hf; cbn [matches forallb eval_op existsb]; unfold field;
       rewrite ?Hst; reflexivity).
    f_equal. cbn [matches forallb eval_op existsb]. unfold field. rewrite Hst', Hstart.
    cbn [default from_option id value_eqb value_cmp String.eqb Ascii.eqb Bool.eqb orb andb].
    rewrite Z.leb_compare, (Z.compare_antisym start midnight).
    destruct (start ?= midnight); reflexivity.
Qed.

Lemma confirmation_and_figures_witness :
  let s := run db0 [ Create (booking_request (customer 2%N) 0%N None 10%N
                               (utc 2024 3 10) (utc 2024 3 15) CostUndefined None) ] in
  let r := booking_request (customer 2%N) 100%N None 10%N 0 0 CostUndefined None in
  answered 200 (confirmBookingPayment s r) = true
  /\ futureBookingsCount (confirmBookingPayment s r).1 (utc 2024 1 1) = 1%nat.
Proof.
  intros s r.
  assert (answered 200 (confirmBookingPayment s r) = true) as Ha by (vm_compute; reflexivity).
  split; [exact Ha |].
  destruct (confirmation_and_figures s _ r _ (utc 2024 3 10) (utc 2024 1 1)
              (answered_eq 200 _ Ha)) as (_ & _ & ->); vm_compute; reflexivity.
Defined.

(** ** The frontend against the handlers *)

Lemma BookingSchema_no_status : "status" ∉ map fst BookingSchema.
Proof. cbn. rewrite !not_elem_of_cons. repeat split; try discriminate. apply not_elem_of_nil. Qed.



(** X18. The two lists of the account page: a booking with an end date is in
    exactly one of them, and a booking without one is in no list unless its
    [status] is completed or cancelled. *)
Theorem account_lists (now : Z) (b : doc) :
  (forall e, b !! "end_date" = Some (VDate e) -> upcoming now b = negb (past now b))
  /\ (b !! "end_date" = None ->
      upcoming now b = false
      /\ past now b = status_equals b "completed" || status_equals b "cancelled").
Proof.
  unfold upcoming, past. split.
  - intros e ->. cbn [js_Date]. rewrite !negb_orb, Z.ltb_antisym, negb_involutive.
    reflexivity.
  - intros ->. cbn [js_Date]. split; reflexivity.
Qed.

(** X19. The cards of the account page read [status], a key that no stored
    booking has: after any run of calls on bookings without that key, no
    booking gets the Pay Now or the Cancel Booking button, and a booking is
    listed as upcoming exactly when its end date is not before now, whatever
    its [booking_status]. *)
Theorem account_buttons_never_shown (s : db) (cs : list call) (now : Z) (d : doc) :
  Forall (fun b : doc => b !! "status" = None) (bookings s) ->
  d ∈ bookings (run s cs) ->
  pay_now_button d = false /\ cancel_button d = false
  /\ (forall e, d !! "end_date" = Some (VDate e) ->
        upcoming now d = (now <=? e) /\ past now d = (e <? now)).
Proof.
  intros Hs Hd.
  assert (d !! "status" = None) as Hnone.
  { revert d Hd. apply Forall_forall. apply run_Forall; [| exact Hs].
    clear. intros s c. apply step_Forall.
    - intros. rewrite lookup_insert_ne by discriminate.
      apply construct_undeclared, BookingSchema_no_status.
    - intros old * Hold _.
      rewrite set_paths_undeclared by apply BookingSchema_no_status. exact Hold.
    - intros old Hold. rewrite lookup_insert_ne by discriminate. exact Hold. }
  unfold pay_now_button, cancel_button, upcoming, past, status_equals. rewrite Hnone.
  split; [reflexivity |]. split; [reflexivity |].
  intros e ->. cbn [js_Date negb]. rewrite !andb_true_r, !orb_false_r. split; reflexivity.
Qed.

Lemma account_buttons_never_shown_witness :
  let s := run db0 [ Create (booking_request (customer 2%N) 0%N None 10%N
                               (utc 2024 3 10) (utc 2024 3 15) CostUndefined None) ] in
  exists d, findById 100%N (bookings s) = Some d
            /\ d !! "booking_status" = Some (VStr "pending_payment")
            /\ pay_now_button d = false.
Proof.
  intros s.
  destruct (findById 100%N (bookings s)) as [d |] eqn:Hf;
    [| exfalso; revert Hf; vm_compute; discriminate].
  exists d. split; [reflexivity |].
  split.
  - apply (f_equal (fun o => o ≫= (fun x : doc => x !! "booking_status"))) in Hf.
    cbn [mbind option_bind] in Hf. rewrite <- Hf. vm_compute. reflexivity.
  - apply findById_elem in Hf as [Hin _].
    apply (account_buttons_never_shown db0
             [ Create (booking_request (customer 2%N) 0%N None 10%N
                         (utc 2024 3 10) (utc 2024 3 15) CostUndefined None) ] 0 d);
      [constructor | exact Hin].
Defined.

(** ** Days and validation *)









